(** * Momo's Guide to Monsters: the knowledge-check engine

    A shallow embedding of the tier resolver, the knowledge gatherer, the
    information extractors and the bestiary merger of
    [scripts/knowledge-check-dialog.mjs], of the click handler of
    [scripts/main.mjs] and of the tier settings of [scripts/settings.mjs],
    followed by the properties the design document states about them.

    Conventions.  JavaScript numbers that the module compares or prints are
    whole numbers here ([Z]); [undefined]/[null] is [None]; a plain object
    whose enumeration order matters is an association list in insertion
    order; what the host application provides (localisation and the
    system's label tables) is a record of functions handed to every
    operation, and what it decides (the dice, the clock) is an argument. *)

From Stdlib Require Import ZArith String Ascii List Bool Lia.
From stdpp Require Import base option list gmap strings pretty.

Open Scope Z_scope.

(* ------------------------------------------------------------------ *)
(** ** JavaScript values and idioms *)
(* ------------------------------------------------------------------ *)

Module Js.

(** Truthiness of a number: only [0] is falsy (NaN does not arise from
    whole numbers). *)
Definition truthy_num (n : Z) : bool := negb (n =? 0).

(** Truthiness of a string: only the empty string is falsy. *)
Definition truthy_str (s : string) : bool := negb (String.eqb s EmptyString).

(** Truthiness of a possibly-undefined number or string. *)
Definition truthy_onum (n : option Z) : bool :=
  match n with Some k => truthy_num k | None => false end.

Definition truthy_ostr (s : option string) : bool :=
  match s with Some k => truthy_str k | None => false end.

(** [a || b] on strings, [a] possibly undefined. *)
Definition or_str (a : option string) (b : string) : string :=
  match a with
  | Some s => if truthy_str s then s else b
  | None => b
  end.

(** [a >= b] where [a] may be [undefined]: [undefined] converts to NaN
    and every comparison with NaN is false. *)
Definition ge (a : option Z) (b : Z) : bool :=
  match a with Some x => b <=? x | None => false end.

(** Truthiness of [xs.length]. *)
Definition truthy_len {A} (xs : list A) : bool :=
  match xs with [] => false | _ :: _ => true end.

(** [Array.prototype.join]. *)
Definition join (sep : string) (l : list string) : string :=
  String.concat sep l.

(** [String(n)] for a whole number. *)
Definition num_to_string (n : Z) : string := pretty n.

(** A plain object with string keys, in insertion order.  Assigning to an
    existing key keeps its position; a new key goes last. *)
Definition obj (A : Type) : Type := list (string * A).

Fixpoint obj_get {A} (k : string) (o : obj A) : option A :=
  match o with
  | [] => None
  | (k', v) :: r => if String.eqb k k' then Some v else obj_get k r
  end.

Fixpoint obj_set {A} (k : string) (v : A) (o : obj A) : obj A :=
  match o with
  | [] => [(k, v)]
  | (k', v') :: r =>
      if String.eqb k k' then (k, v) :: r else (k', v') :: obj_set k v r
  end.

(** [Object.entries]. *)
Definition entries {A} (o : obj A) : list (string * A) := o.

End Js.

(* ------------------------------------------------------------------ *)
(** ** Tier settings ([settings.mjs]) *)
(* ------------------------------------------------------------------ *)

Module Settings.

(** One tier of [getAllTierConfig()]: its difficulty and the information
    kinds it reveals, in display order. *)
Record TierCfg := { dc : Z; info : list string }.

(** The object [getAllTierConfig()] returns: always the five tiers. *)
Record AllTierConfig := {
  tier1 : TierCfg;
  tier2 : TierCfg;
  tier3 : TierCfg;
  tier4 : TierCfg;
  tier5 : TierCfg
}.

(** [tierConfig[tierId]]: [undefined] for any other key. *)
Definition tier_get (c : AllTierConfig) (tierId : string) : option TierCfg :=
  if String.eqb tierId "tier1" then Some (tier1 c)
  else if String.eqb tierId "tier2" then Some (tier2 c)
  else if String.eqb tierId "tier3" then Some (tier3 c)
  else if String.eqb tierId "tier4" then Some (tier4 c)
  else if String.eqb tierId "tier5" then Some (tier5 c)
  else None.

(** [DEFAULT_TIER_INFO] and [DEFAULT_DCS]. *)
Definition DEFAULT_TIER_INFO : Js.obj (list string) :=
  [("tier1", ["resistances"]);
   ("tier2", ["conditionImmunities"]);
   ("tier3", ["highestStat"]);
   ("tier4", ["lowestStat"]);
   ("tier5", [])].

(** [INFO_TYPES]: the information kinds and the message key of each. *)
Definition INFO_TYPES : Js.obj string :=
  [("resistances", "MKC.InfoType.Resistances");
   ("conditionImmunities", "MKC.InfoType.ConditionImmunities");
   ("highestStat", "MKC.InfoType.HighestStat");
   ("lowestStat", "MKC.InfoType.LowestStat");
   ("ac", "MKC.InfoType.AC");
   ("hp", "MKC.InfoType.HP");
   ("speed", "MKC.InfoType.Speed");
   ("senses", "MKC.InfoType.Senses");
   ("languages", "MKC.InfoType.Languages");
   ("cr", "MKC.InfoType.CR");
   ("creatureType", "MKC.InfoType.CreatureType");
   ("allStats", "MKC.InfoType.AllStats");
   ("allSaves", "MKC.InfoType.AllSaves");
   ("legendaryActions", "MKC.InfoType.LegendaryActions");
   ("legendaryResistances", "MKC.InfoType.LegendaryResistances")].

Definition DEFAULT_DCS : Js.obj Z :=
  [("tier1", 12); ("tier2", 15); ("tier3", 18); ("tier4", 22); ("tier5", 25)].

(** What [getAllTierConfig()] returns when every setting still has its
    registered default. *)
Definition default_tier (t : string) : TierCfg :=
  {| dc := default 0 (Js.obj_get t DEFAULT_DCS);
     info := default [] (Js.obj_get t DEFAULT_TIER_INFO) |}.

Definition default_config : AllTierConfig :=
  {| tier1 := default_tier "tier1";
     tier2 := default_tier "tier2";
     tier3 := default_tier "tier3";
     tier4 := default_tier "tier4";
     tier5 := default_tier "tier5" |}.

End Settings.

(* ------------------------------------------------------------------ *)
(** ** The host application and the monster's data *)
(* ------------------------------------------------------------------ *)

Module Host.

(** What the module reads from the host: [game.i18n] and the label
    tables of [CONFIG.DND5E].  A table lookup gives the entry's [label]
    (or [abbreviation]) when the entry exists and has one. *)
Record t := {
  localize : string -> string;
  format : string -> list (string * string) -> string;
  damageTypes : string -> option string;
  conditionTypes : string -> option string;
  languages : string -> option string;
  creatureTypes : string -> option string;
  abilityLabel : string -> option string;
  abilityAbbreviation : string -> option string;
  toUpperCase : string -> string
}.

End Host.

Module Monster.

(** [trait.value]: a [Set], an array, or anything else.  A [Set] is
    enumerated in insertion order, so both carry a list. *)
Inductive TraitValue :=
| VSet (l : list string)
| VArray (l : list string)
| VOther.

Record Trait := { value : TraitValue; custom : option string }.

(** [ability.save]: an object with a possibly missing [value], a bare
    number, or nothing. *)
Inductive Save :=
| SaveObj (v : option Z)
| SaveNum (n : Z)
| SaveNone.

Record Ability := { score : Z; save : Save }.

Record Movement := {
  walk : option Z;
  fly : option Z;
  swim : option Z;
  climb : option Z;
  burrow : option Z;
  hover : bool;
  move_units : option string
}.

Record Senses := {
  darkvision : option Z;
  blindsight : option Z;
  tremorsense : option Z;
  truesight : option Z;
  special : option string;
  sense_units : option string
}.

Record CreatureType := { type_value : option string; subtype : option string }.

(** [actor.system], restricted to what the module reads: the fields the
    extractors use on a monster, and the skill totals used on the acting
    character.  [abilities] keeps the object's enumeration order; every
    number is whole (a fractional challenge rating is not modelled). *)
Record System := {
  abilities : Js.obj Ability;
  dv : option Trait;
  dr : option Trait;
  di : option Trait;
  ci : option Trait;
  languages : option Trait;
  ac_value : option Z;
  hp_max : option Z;
  hp_formula : option string;
  movement : option Movement;
  senses : option Senses;
  cr : option Z;
  creature_type : option CreatureType;
  legact_max : option Z;
  legres_max : option Z;
  skills : Js.obj Z
}.

(** An actor document. *)
Record Actor := {
  id : string;
  name : string;
  type : string;
  isOwner : bool;
  system : System
}.

End Monster.

(* ------------------------------------------------------------------ *)
(** ** The knowledge bundle *)
(* ------------------------------------------------------------------ *)

Module Knowledge.

(** A displayed scalar: a number passed through, or text. *)
Inductive Scalar :=
| SNum (n : Z)
| SStr (s : string).

Record SubItem := { sub_label : string; sub_items : list string }.

(** An information item is a plain object; which of [value], [items] and
    [subItems] it carries decides how it is displayed. *)
Record InfoItem := {
  label : string;
  value : option Scalar;
  formula : option string;
  items : option (list string);
  emptyText : option string;
  subItems : option (list SubItem)
}.

(** [{label, value}] *)
Definition scalar_item (l : string) (v : Scalar) : InfoItem :=
  {| label := l; value := Some v; formula := None;
     items := None; emptyText := None; subItems := None |}.

(** [{label, value, formula}] *)
Definition formula_item (l : string) (v : Scalar) (f : option string) : InfoItem :=
  {| label := l; value := Some v; formula := f;
     items := None; emptyText := None; subItems := None |}.

(** [{label, items, emptyText}] *)
Definition list_item (l : string) (xs : list string) (e : string) : InfoItem :=
  {| label := l; value := None; formula := None;
     items := Some xs; emptyText := Some e; subItems := None |}.

(** What [_getInfoByType] returns: [null], one item, or an array. *)
Inductive Info :=
| InfoNull
| InfoOne (i : InfoItem)
| InfoMany (l : list InfoItem).

(** The items a result of [_getInfoByType] contributes to a tier. *)
Definition items_of (i : Info) : list InfoItem :=
  match i with
  | InfoNull => []
  | InfoOne x => [x]
  | InfoMany l => l
  end.

(** One entry of [knowledge.tiers].  [label], [icon] and [level] are
    spread from the tier-label table and are missing for an id the
    table does not have. *)
Record TierData := {
  id : string;
  tier_label : option string;
  icon : option string;
  level : option Z;
  unlocked : bool;
  info : list InfoItem
}.

Record t := { tiers : list TierData; hasAny : bool }.

End Knowledge.

(* ------------------------------------------------------------------ *)
(** ** The information extractors ([MonsterKnowledgeDialog]) *)
(* ------------------------------------------------------------------ *)

Module Extract.
Import Knowledge.

(** [-Infinity], a whole number, [Infinity]: the running extreme of the
    ability scan starts at an infinity. *)
Inductive ext :=
| NegInf
| Fin (n : Z)
| PosInf.

(** [n > e] and [n < e] for a whole number [n]. *)
Definition gt_ext (n : Z) (e : ext) : bool :=
  match e with NegInf => true | Fin m => m <? n | PosInf => false end.

Definition lt_ext (n : Z) (e : ext) : bool :=
  match e with NegInf => false | Fin m => n <? m | PosInf => true end.

(** The value of [ability.save?.value ?? ability.save ?? 0]: a number, or
    the save object itself when it has no [value]. *)
Inductive SaveVal :=
| SvNum (n : Z)
| SvObj.

Definition save_of (s : Monster.Save) : SaveVal :=
  match s with
  | Monster.SaveObj (Some v) => SvNum v
  | Monster.SaveObj None => SvObj
  | Monster.SaveNum n => SvNum n
  | Monster.SaveNone => SvNum 0
  end.

(** The sign printed before a save: a plus for [save >= 0], else nothing. *)
Definition save_sign (s : SaveVal) : string :=
  match s with
  | SvNum n => if 0 <=? n then "+" else EmptyString
  | SvObj => EmptyString
  end.

Definition save_to_string (s : SaveVal) : string :=
  match s with
  | SvNum n => Js.num_to_string n
  | SvObj => "[object Object]"
  end.

(** The running extreme [{ id, value, save, label }]. *)
Record Stat := {
  stat_id : option string;
  stat_value : ext;
  stat_save : SaveVal;
  stat_label : string
}.

Definition ext_to_string (e : ext) : string :=
  match e with
  | NegInf => "-Infinity"
  | Fin n => Js.num_to_string n
  | PosInf => "Infinity"
  end.

Section WithMonster.
Variable h : Host.t.
Variable monster : Monster.Actor.

Let sys := Monster.system monster.

(** The loop shared by the trait formatters: one label per entry of a
    [Set] or array [value], the table's label or else the key. *)
Definition trait_labels (table : string -> option string)
    (v : Monster.TraitValue) : list string :=
  match v with
  | Monster.VSet l => map (fun type => Js.or_str (table type) type) l
  | Monster.VArray l => map (fun type => Js.or_str (table type) type) l
  | Monster.VOther => []
  end.

(** [if (trait.custom) values.push(trait.custom)] *)
Definition push_custom (values : list string) (c : option string) : list string :=
  match c with
  | Some s => if Js.truthy_str s then values ++ [s] else values
  | None => values
  end.

Definition _formatDamageTraits (trait : option Monster.Trait) : list string :=
  match trait with
  | None => []
  | Some t =>
      push_custom (trait_labels (Host.damageTypes h) (Monster.value t))
                  (Monster.custom t)
  end.

Definition _getConditionImmunities : list string :=
  match Monster.ci sys with
  | None => []
  | Some ci =>
      push_custom (trait_labels (Host.conditionTypes h) (Monster.value ci))
                  (Monster.custom ci)
  end.

(** [if (xs.length) infoItems.push({label, items: xs, emptyText})] with
    the empty string as [emptyText]. *)
Definition push_category (infoItems : list InfoItem) (key : string)
    (xs : list string) : list InfoItem :=
  if Js.truthy_len xs
  then infoItems ++ [list_item (Host.localize h key) xs EmptyString]
  else infoItems.

Definition _getResistancesInfo : Info :=
  let vuln := _formatDamageTraits (Monster.dv sys) in
  let res := _formatDamageTraits (Monster.dr sys) in
  let imm := _formatDamageTraits (Monster.di sys) in
  let infoItems := [] in
  let infoItems := push_category infoItems "MKC.Chat.DamageVulnerabilities" vuln in
  let infoItems := push_category infoItems "MKC.Chat.DamageResistances" res in
  let infoItems := push_category infoItems "MKC.Chat.DamageImmunities" imm in
  match infoItems with
  | [] =>
      InfoOne (scalar_item (Host.localize h "MKC.Chat.DamageTraits")
                 (SStr (Host.localize h "MKC.Chat.NoDamageTraits")))
  | _ :: _ => InfoMany infoItems
  end.

Definition _getConditionImmunitiesInfo : Info :=
  InfoOne (list_item (Host.localize h "MKC.InfoType.ConditionImmunities")
             _getConditionImmunities
             (Host.localize h "MKC.Chat.NoConditionImmunities")).

(** The record built when an ability becomes the running extreme. *)
Definition stat_of (id : string) (ability : Monster.Ability) : Stat :=
  {| stat_id := Some id;
     stat_value := Fin (Monster.score ability);
     stat_save := save_of (Monster.save ability);
     stat_label := Js.or_str (Host.abilityLabel h id) id |}.

(** [highest.id ? highest : null] *)
Definition stat_result (s : Stat) : option Stat :=
  if Js.truthy_ostr (stat_id s) then Some s else None.

Definition highest_step (highest : Stat) (e : string * Monster.Ability) : Stat :=
  if gt_ext (Monster.score (snd e)) (stat_value highest)
  then stat_of (fst e) (snd e) else highest.

Definition lowest_step (lowest : Stat) (e : string * Monster.Ability) : Stat :=
  if lt_ext (Monster.score (snd e)) (stat_value lowest)
  then stat_of (fst e) (snd e) else lowest.

Definition highest_init : Stat :=
  {| stat_id := None; stat_value := NegInf; stat_save := SvNum 0; stat_label := EmptyString |}.

Definition lowest_init : Stat :=
  {| stat_id := None; stat_value := PosInf; stat_save := SvNum 0; stat_label := EmptyString |}.

Definition _getHighestStat : option Stat :=
  stat_result (fold_left highest_step (Js.entries (Monster.abilities sys)) highest_init).

Definition _getLowestStat : option Stat :=
  stat_result (fold_left lowest_step (Js.entries (Monster.abilities sys)) lowest_init).

(** [`${stat.label}: ${stat.value} (${Save}: ${saveSign}${stat.save})`] *)
Definition stat_text (stat : Stat) : string :=
  stat_label stat +:+ ": " +:+ ext_to_string (stat_value stat) +:+ " ("
    +:+ Host.localize h "MKC.Chat.Save" +:+ ": "
    +:+ save_sign (stat_save stat) +:+ save_to_string (stat_save stat) +:+ ")".

Definition _getHighestStatInfo : Info :=
  match _getHighestStat with
  | None => InfoNull
  | Some stat =>
      InfoOne (scalar_item (Host.localize h "MKC.Chat.HighestStat")
                 (SStr (stat_text stat)))
  end.

Definition _getLowestStatInfo : Info :=
  match _getLowestStat with
  | None => InfoNull
  | Some stat =>
      InfoOne (scalar_item (Host.localize h "MKC.Chat.LowestStat")
                 (SStr (stat_text stat)))
  end.

(** [parts.join(", ") || "—"] *)
Definition join_or_dash (parts : list string) : string :=
  Js.or_str (Some (Js.join ", " parts)) "—".

(** [if (n) parts.push(text n)] for a possibly missing number. *)
Definition push_if_num (parts : list string) (n : option Z)
    (text : Z -> string) : list string :=
  match n with
  | Some k => if Js.truthy_num k then parts ++ [text k] else parts
  | None => parts
  end.

Definition _formatSpeed : string :=
  match Monster.movement sys with
  | None => "—"
  | Some movement =>
      let units := Js.or_str (Monster.move_units movement) "ft." in
      let parts := [] in
      let parts := push_if_num parts (Monster.walk movement)
        (fun n => Js.num_to_string n +:+ " " +:+ units) in
      let parts := push_if_num parts (Monster.fly movement)
        (fun n => "fly " +:+ Js.num_to_string n +:+ " " +:+ units
                  +:+ (if Monster.hover movement then " (hover)" else EmptyString)) in
      let parts := push_if_num parts (Monster.swim movement)
        (fun n => "swim " +:+ Js.num_to_string n +:+ " " +:+ units) in
      let parts := push_if_num parts (Monster.climb movement)
        (fun n => "climb " +:+ Js.num_to_string n +:+ " " +:+ units) in
      let parts := push_if_num parts (Monster.burrow movement)
        (fun n => "burrow " +:+ Js.num_to_string n +:+ " " +:+ units) in
      join_or_dash parts
  end.

Definition _formatSenses : string :=
  match Monster.senses sys with
  | None => "—"
  | Some senses =>
      let units := Js.or_str (Monster.sense_units senses) "ft." in
      let parts := [] in
      let parts := push_if_num parts (Monster.darkvision senses)
        (fun n => "darkvision " +:+ Js.num_to_string n +:+ " " +:+ units) in
      let parts := push_if_num parts (Monster.blindsight senses)
        (fun n => "blindsight " +:+ Js.num_to_string n +:+ " " +:+ units) in
      let parts := push_if_num parts (Monster.tremorsense senses)
        (fun n => "tremorsense " +:+ Js.num_to_string n +:+ " " +:+ units) in
      let parts := push_if_num parts (Monster.truesight senses)
        (fun n => "truesight " +:+ Js.num_to_string n +:+ " " +:+ units) in
      let parts := push_custom parts (Monster.special senses) in
      join_or_dash parts
  end.

Definition _formatLanguages : string :=
  match Monster.languages sys with
  | None => "—"
  | Some languages =>
      join_or_dash
        (push_custom (trait_labels (Host.languages h) (Monster.value languages))
                     (Monster.custom languages))
  end.

(** A missing [type.value] indexes the table with [undefined]. *)
Definition _formatCreatureType : string :=
  let typeValue := mbind Monster.type_value (Monster.creature_type sys) in
  let typeLabel :=
    Js.or_str (Host.creatureTypes h (default "undefined" typeValue))
              (Js.or_str typeValue "—") in
  match mbind Monster.subtype (Monster.creature_type sys) with
  | Some st =>
      if Js.truthy_str st then typeLabel +:+ " (" +:+ st +:+ ")" else typeLabel
  | None => typeLabel
  end.

(** [CONFIG.DND5E.abilities[id]?.abbreviation?.toUpperCase() || id] *)
Definition ability_abbr (id : string) : string :=
  Js.or_str (Host.toUpperCase h <$> Host.abilityAbbreviation h id) id.

Definition _formatAllStats : string :=
  Js.join ", "
    (map (fun e : string * Monster.Ability =>
            ability_abbr (fst e) +:+ ": " +:+ Js.num_to_string (Monster.score (snd e)))
         (Js.entries (Monster.abilities sys))).

Definition _formatAllSaves : string :=
  Js.join ", "
    (map (fun e : string * Monster.Ability =>
            let save := save_of (Monster.save (snd e)) in
            ability_abbr (fst e) +:+ ": " +:+ save_sign save +:+ save_to_string save)
         (Js.entries (Monster.abilities sys))).

(** [x ?? "—"] and [x ?? 0] on a possibly missing number. *)
Definition num_or_dash (n : option Z) : Scalar :=
  match n with Some k => SNum k | None => SStr "—" end.

Definition num_or_zero (n : option Z) : Scalar :=
  SNum (default 0 n).

(** [hp?.formula || null] *)
Definition formula_or_null (f : option string) : option string :=
  if Js.truthy_ostr f then f else None.

(** The [switch] of [_getInfoByType]; [default: return null]. *)
Definition _getInfoByType (infoType : string) : Info :=
  if String.eqb infoType "resistances" then _getResistancesInfo
  else if String.eqb infoType "conditionImmunities" then _getConditionImmunitiesInfo
  else if String.eqb infoType "highestStat" then _getHighestStatInfo
  else if String.eqb infoType "lowestStat" then _getLowestStatInfo
  else if String.eqb infoType "ac" then
    InfoOne (scalar_item (Host.localize h "MKC.InfoType.AC")
               (num_or_dash (Monster.ac_value sys)))
  else if String.eqb infoType "hp" then
    InfoOne (formula_item (Host.localize h "MKC.InfoType.HP")
               (num_or_dash (Monster.hp_max sys))
               (formula_or_null (Monster.hp_formula sys)))
  else if String.eqb infoType "speed" then
    InfoOne (scalar_item (Host.localize h "MKC.InfoType.Speed") (SStr _formatSpeed))
  else if String.eqb infoType "senses" then
    InfoOne (scalar_item (Host.localize h "MKC.InfoType.Senses") (SStr _formatSenses))
  else if String.eqb infoType "languages" then
    InfoOne (scalar_item (Host.localize h "MKC.InfoType.Languages") (SStr _formatLanguages))
  else if String.eqb infoType "cr" then
    InfoOne (scalar_item (Host.localize h "MKC.InfoType.CR")
               (num_or_dash (Monster.cr sys)))
  else if String.eqb infoType "creatureType" then
    InfoOne (scalar_item (Host.localize h "MKC.InfoType.CreatureType")
               (SStr _formatCreatureType))
  else if String.eqb infoType "allStats" then
    InfoOne (scalar_item (Host.localize h "MKC.InfoType.AllStats") (SStr _formatAllStats))
  else if String.eqb infoType "allSaves" then
    InfoOne (scalar_item (Host.localize h "MKC.InfoType.AllSaves") (SStr _formatAllSaves))
  else if String.eqb infoType "legendaryActions" then
    InfoOne (scalar_item (Host.localize h "MKC.InfoType.LegendaryActions")
               (num_or_zero (Monster.legact_max sys)))
  else if String.eqb infoType "legendaryResistances" then
    InfoOne (scalar_item (Host.localize h "MKC.InfoType.LegendaryResistances")
               (num_or_zero (Monster.legres_max sys)))
  else InfoNull.

End WithMonster.

End Extract.

(* ------------------------------------------------------------------ *)
(** ** Resolving tiers and gathering knowledge ([MonsterKnowledgeDialog]) *)
(* ------------------------------------------------------------------ *)

Module Dialog.
Import Knowledge.

Definition tierOrder : list string :=
  ["tier1"; "tier2"; "tier3"; "tier4"; "tier5"].

(** Whether a key is one of the five tier names. *)
Definition is_tier (tier : string) : bool :=
  existsb (String.eqb tier) tierOrder.

(** One turn of the loop of [_determineUnlockedTiers]:
    [if (dcs[tier]) unlocked[tier] = rollTotal >= dcs[tier]]. *)
Definition unlock_step (rollTotal : option Z) (dcs : gmap string Z)
    (unlocked : Js.obj bool) (tier : string) : Js.obj bool :=
  if Js.truthy_onum (dcs !! tier)
  then Js.obj_set tier (Js.ge rollTotal (default 0 (dcs !! tier))) unlocked
  else unlocked.

(** [rollTotal] is [undefined] when an autopass names a tier that [dcs]
    does not have. *)
Definition _determineUnlockedTiers (rollTotal : option Z) (dcs : gmap string Z)
    : Js.obj bool :=
  fold_left (unlock_step rollTotal dcs) tierOrder [].

(** The [tierLabels] table: message key, icon and level of each tier. *)
Definition tierLabels : Js.obj (string * string * Z) :=
  [("tier1", ("MKC.Tier.I", "fas fa-star", 1));
   ("tier2", ("MKC.Tier.II", "fas fa-star", 2));
   ("tier3", ("MKC.Tier.III", "fas fa-star", 3));
   ("tier4", ("MKC.Tier.IV", "fas fa-crown", 4));
   ("tier5", ("MKC.Tier.V", "fas fa-gem", 5))].

Section WithMonster.
Variable h : Host.t.
Variable monster : Monster.Actor.

(** The inner loop of [_gatherKnowledge]: a [null] result adds nothing,
    an array is spread, a single item is pushed. *)
Definition push_info (info : list InfoItem) (infoType : string) : list InfoItem :=
  match Extract._getInfoByType h monster infoType with
  | InfoNull => info
  | InfoMany l => info ++ l
  | InfoOne i => info ++ [i]
  end.

(** [{ id: tierId, ...tierLabels[tierId], unlocked: true, info: [] }] *)
Definition new_tierData (tierId : string) : TierData :=
  let l := Js.obj_get tierId tierLabels in
  {| id := tierId;
     tier_label := (fun x => Host.localize h (fst (fst x))) <$> l;
     icon := (fun x => snd (fst x)) <$> l;
     level := snd <$> l;
     unlocked := true;
     info := [] |}.

Definition set_info (t : TierData) (i : list InfoItem) : TierData :=
  {| id := id t; tier_label := tier_label t; icon := icon t; level := level t;
     unlocked := unlocked t; info := i |}.

(** One turn of the outer loop of [_gatherKnowledge]. *)
Definition gather_step (tierConfig : Settings.AllTierConfig)
    (knowledge : Knowledge.t) (e : string * bool) : Knowledge.t :=
  let '(tierId, unlocked) := e in
  match unlocked, Settings.tier_get tierConfig tierId with
  | true, Some cfg =>
      let infoTypes := Settings.info cfg in
      match infoTypes with
      | [] => knowledge
      | _ :: _ =>
          let tierData :=
            set_info (new_tierData tierId) (fold_left push_info infoTypes []) in
          {| tiers :=
               match info tierData with
               | [] => tiers knowledge
               | _ :: _ => tiers knowledge ++ [tierData]
               end;
             hasAny := true |}
      end
  | _, _ => knowledge
  end.

Definition _gatherKnowledge (unlockedTiers : Js.obj bool)
    (tierConfig : Settings.AllTierConfig) : Knowledge.t :=
  fold_left (gather_step tierConfig) (Js.entries unlockedTiers)
    {| tiers := []; hasAny := false |}.

(** The thresholds of one check: the four fixed tiers, and the fifth
    only when it has a difficulty and at least one information kind;
    each with the difficulty modifier added. *)
Definition check_dcs (tierConfig : Settings.AllTierConfig) (dcModifier : Z)
    : gmap string Z :=
  let dcs : gmap string Z :=
    <["tier4" := Settings.dc (Settings.tier4 tierConfig) + dcModifier]>
    (<["tier3" := Settings.dc (Settings.tier3 tierConfig) + dcModifier]>
    (<["tier2" := Settings.dc (Settings.tier2 tierConfig) + dcModifier]>
    (<["tier1" := Settings.dc (Settings.tier1 tierConfig) + dcModifier]> ∅))) in
  if Js.truthy_num (Settings.dc (Settings.tier5 tierConfig))
     && negb (Nat.eqb (length (Settings.info (Settings.tier5 tierConfig))) 0)
  then <["tier5" := Settings.dc (Settings.tier5 tierConfig) + dcModifier]> dcs
  else dcs.

(** Whether a check has a threshold for a tier: always for the first
    four, and for the fifth under the condition above. *)
Definition configured (tierConfig : Settings.AllTierConfig) (tier : string) : bool :=
  if String.eqb tier "tier5"
  then Js.truthy_num (Settings.dc (Settings.tier5 tierConfig))
       && negb (Nat.eqb (length (Settings.info (Settings.tier5 tierConfig))) 0)
  else is_tier tier.

(** The evaluated dice roll: its total and its formula. *)
Record Roll := { total : Z; roll_formula : string }.

(** What [_sendResultToChat] posts: the template data that depend on
    the check, and the flags kept for the bestiary button. *)
Record ChatMessage := {
  msg_roll : option Roll;
  isAutopass : bool;
  autopassLevel : string;
  msg_dcs : gmap string Z;
  msg_tiers : list TierData;
  hasKnowledge : bool;
  flag_monsterId : string;
  flag_monsterName : string;
  flag_skillUsed : string;
  flag_knowledge : Knowledge.t
}.

(** [effectiveTotal] of [_performKnowledgeCheck]: the threshold of the
    named tier on an autopass, else the total of the roll. *)
Definition effective_total (dcs : gmap string Z) (autopass : string)
    (roll : option Roll) : option Z :=
  if Js.truthy_str autopass then dcs !! autopass else total <$> roll.

(** [_performKnowledgeCheck].  [player] is the selected character and
    [rolled] the total the dice evaluator returns for the formula; the
    result is [None] where the source throws (no such character, or a
    roll with a skill the character does not have). *)
Definition _performKnowledgeCheck (player : option Monster.Actor)
    (tierConfig : Settings.AllTierConfig) (rolled : Z)
    (skillId : string) (advantage : bool) (dcModifier : Z) (autopass : string)
    : option ChatMessage :=
  p ← player;
  let skill := Js.obj_get skillId (Monster.skills (Monster.system p)) in
  let dcs := check_dcs tierConfig dcModifier in
  roll ← (if Js.truthy_str autopass then Some None
          else
            skill_total ← skill;
            let rollFormula :=
              (if advantage then "2d20kh" else "1d20")
                +:+ " + " +:+ Js.num_to_string skill_total in
            Some (Some {| total := rolled; roll_formula := rollFormula |}));
  let effectiveTotal := effective_total dcs autopass roll in
  let unlockedTiers := _determineUnlockedTiers effectiveTotal dcs in
  let knowledge := _gatherKnowledge unlockedTiers tierConfig in
  Some {| msg_roll := roll;
          isAutopass := Js.truthy_str autopass;
          autopassLevel := autopass;
          msg_dcs := dcs;
          msg_tiers := tiers knowledge;
          hasKnowledge := hasAny knowledge;
          flag_monsterId := Monster.id monster;
          flag_monsterName := Monster.name monster;
          flag_skillUsed := skillId;
          flag_knowledge := knowledge |}.

End WithMonster.

End Dialog.

(* ------------------------------------------------------------------ *)
(** ** The bestiary journal ([addToBestiary]) *)
(* ------------------------------------------------------------------ *)

Module Bestiary.
Import Knowledge.

(** A journal page and a journal entry, as far as the merger uses them. *)
Record Page := { page_name : string; page_type : string; content : string }.

Record JournalEntry := { journal_name : string; pages : list Page }.

(** A message shown through [ui.notifications]. *)
Inductive Notification :=
| Warn (msg : string)
| Error (msg : string)
| Info (msg : string).

(** The part of [game] and [ui] the module reads and writes:
    [game.actors], [game.journal], and the notifications shown so far. *)
Record World := {
  actors : list Monster.Actor;
  journal : list JournalEntry;
  notifications : list Notification
}.

Definition notify (n : Notification) (w : World) : World :=
  {| actors := actors w; journal := journal w;
     notifications := notifications w ++ [n] |}.

Definition set_journal (j : list JournalEntry) (w : World) : World :=
  {| actors := actors w; journal := j; notifications := notifications w |}.

(** [game.actors.get(id)] *)
Definition actors_get (w : World) (id : string) : option Monster.Actor :=
  find (fun a => String.eqb (Monster.id a) id) (actors w).

(** [game.journal.find(j => j.name === journalName)] *)
Definition journal_find (journalName : string) (w : World) : option JournalEntry :=
  find (fun j => String.eqb (journal_name j) journalName) (journal w).

(** What the bestiary holds on a monster: the contents of the pages named
    after it in the journal [journal_find] gives, in page order.  The
    first of them is the page [addToBestiary] works on. *)
Definition records (journalName monsterName : string) (w : World) : list string :=
  match journal_find journalName w with
  | None => []
  | Some bestiary =>
      map content
        (List.filter (fun p => String.eqb (page_name p) monsterName) (pages bestiary))
  end.

(** An interpolated [${x}] where [x] may be [undefined]. *)
Definition show_ostr (s : option string) : string := default "undefined" s.

Definition show_scalar (v : option Scalar) : string :=
  match v with
  | Some (SNum n) => Js.num_to_string n
  | Some (SStr s) => s
  | None => "undefined"
  end.

(** The text one information item adds to the page. *)
Definition info_html (info : InfoItem) : string :=
  match subItems info, items info with
  | Some subs, _ =>
      "<p><strong>" +:+ label info +:+ ":</strong></p><ul>"
        +:+ fold_left
              (fun acc sub =>
                 acc +:+ "<li><strong>" +:+ sub_label sub +:+ ":</strong> "
                     +:+ Js.join ", " (sub_items sub) +:+ "</li>")
              subs EmptyString
        +:+ "</ul>"
  | None, Some xs =>
      match xs with
      | _ :: _ =>
          "<p><strong>" +:+ label info +:+ ":</strong> "
            +:+ Js.join ", " xs +:+ "</p>"
      | [] =>
          "<p><strong>" +:+ label info +:+ ":</strong> <em>"
            +:+ Js.or_str (emptyText info) "None" +:+ "</em></p>"
      end
  | None, None =>
      "<p><strong>" +:+ label info +:+ ":</strong> "
        +:+ show_scalar (value info)
        +:+ (if Js.truthy_ostr (formula info)
             then " (" +:+ show_ostr (formula info) +:+ ")" else EmptyString)
        +:+ "</p>"
  end.

Definition tier_html (content : string) (tier : TierData) : string :=
  fold_left (fun acc info => acc +:+ info_html info) (Knowledge.info tier)
    (content +:+ "<h3>" +:+ show_ostr (tier_label tier) +:+ "</h3>").

Section WithHost.
Variable h : Host.t.
(** [new Date().toLocaleDateString()] at the time of the call. *)
Variable timestamp : string.

(** The line every page starts with. *)
Definition header : string :=
  "<p><em>" +:+ Host.format h "MKC.Journal.LastUpdated" [("date", timestamp)]
    +:+ "</em></p><hr>".

Definition buildBestiaryContent (knowledge : Knowledge.t) (monsterName : string)
    : string :=
  fold_left tier_html (tiers knowledge) header.

Definition mergeBestiaryContent (existingContent newContent : string) : string :=
  newContent.

(** [existingPage.update({ "text.content": c })] on the first page
    named [monsterName]. *)
Fixpoint update_page (monsterName : string) (f : string -> string)
    (ps : list Page) : list Page :=
  match ps with
  | [] => []
  | p :: r =>
      if String.eqb (page_name p) monsterName
      then {| page_name := page_name p; page_type := page_type p;
              content := f (content p) |} :: r
      else p :: update_page monsterName f r
  end.

(** The branch of [addToBestiary] taken on an existing journal: update
    the monster's page or add one. *)
Definition commit_page (monsterName content : string) (bestiary : JournalEntry)
    : JournalEntry * Notification :=
  match find (fun p => String.eqb (page_name p) monsterName) (pages bestiary) with
  | Some existingPage =>
      ({| journal_name := journal_name bestiary;
          pages := update_page monsterName
                     (fun existing => mergeBestiaryContent existing content)
                     (pages bestiary) |},
       Info (Host.format h "MKC.Journal.Updated" [("name", monsterName)]))
  | None =>
      ({| journal_name := journal_name bestiary;
          pages := pages bestiary
                     ++ [{| page_name := monsterName; page_type := "text";
                            content := content |}] |},
       Info (Host.format h "MKC.Journal.PageAdded" [("name", monsterName)]))
  end.

(** The journal documents are mutable: a change to the entry that
    [find] returned is a change to the first entry of that name. *)
Fixpoint store_journal (journalName : string) (j' : JournalEntry)
    (js : list JournalEntry) : list JournalEntry :=
  match js with
  | [] => []
  | j :: r =>
      if String.eqb (journal_name j) journalName
      then j' :: r else j :: store_journal journalName j' r
  end.

Definition addToBestiary (monsterId : string) (knowledge : Knowledge.t)
    (w : World) : World :=
  match actors_get w monsterId with
  | None => notify (Error (Host.localize h "MKC.Errors.MonsterNotFound")) w
  | Some monster =>
      let monsterName := Monster.name monster in
      let journalName := Host.localize h "MKC.Journal.BestiaryName" in
      let content := buildBestiaryContent knowledge monsterName in
      match journal_find journalName w with
      | None =>
          notify (Info (Host.format h "MKC.Journal.Created" [("name", monsterName)]))
            (set_journal
               (journal w
                  ++ [{| journal_name := journalName;
                         pages := [{| page_name := monsterName; page_type := "text";
                                      content := content |}] |}])
               w)
      | Some bestiary =>
          let '(bestiary', n) := commit_page monsterName content bestiary in
          notify n (set_journal (store_journal journalName bestiary' (journal w)) w)
      end
  end.

End WithHost.

End Bestiary.

(* ------------------------------------------------------------------ *)
(** ** The token-control button ([main.mjs]) *)
(* ------------------------------------------------------------------ *)

Module Main.
Import Bestiary.

(** A targeted token; [actor] is missing on a token without one. *)
Record Token := { actor : option Monster.Actor }.

(** [game.user]: [targets] is a set, enumerated in insertion order. *)
Record User := {
  isGM : bool;
  character : option Monster.Actor;
  targets : list Token
}.

(** The options the dialog is constructed with. *)
Record DialogOptions := {
  monster : Monster.Actor;
  availableCharacters : list Monster.Actor;
  defaultCharacterId : string
}.

(** What a click leaves behind: the notifications it showed and the
    dialog it rendered, if any. *)
Record ClickResult := {
  shown : list Notification;
  dialog : option DialogOptions
}.

Definition warn_and_return (msg : string) : ClickResult :=
  {| shown := [Warn msg]; dialog := None |}.

Section WithHost.
Variable h : Host.t.

Definition getAvailableCharacters (user : User) (w : World) : list Monster.Actor :=
  if isGM user
  then filter (fun a => Monster.type a = "character") (actors w)
  else filter (fun a => Monster.type a = "character" ∧ Monster.isOwner a = true)
              (actors w).

Definition onMonsterKnowledgeClick (user : User) (w : World) : ClickResult :=
  match targets user with
  | [] => warn_and_return (Host.localize h "MKC.Warnings.NoTokenTargeted")
  | _ :: _ :: _ =>
      warn_and_return (Host.localize h "MKC.Warnings.MultipleTokensTargeted")
  | [token] =>
      match actor token with
      | None => warn_and_return (Host.localize h "MKC.Warnings.NoActorOnToken")
      | Some actor =>
          if negb (String.eqb (Monster.type actor) "npc")
          then warn_and_return (Host.localize h "MKC.Warnings.NotAnNPC")
          else
            let availableCharacters := getAvailableCharacters user w in
            match availableCharacters with
            | [] => warn_and_return (Host.localize h "MKC.Warnings.NoPlayerCharacter")
            | first :: _ =>
                let defaultCharacter := default first (character user) in
                {| shown := [];
                   dialog :=
                     Some {| monster := actor;
                             availableCharacters := availableCharacters;
                             defaultCharacterId := Monster.id defaultCharacter |} |}
            end
      end
  end.

(** The submitted form of the dialog, after [_onSubmitForm] has read it:
    the chosen character, the skill, the advantage flag, the difficulty
    modifier and the autopass tier (empty for a roll). *)
Record FormData := {
  form_character : option string;
  form_skill : string;
  form_advantage : bool;
  form_dcModifier : Z;
  form_autopass : string
}.

(** [selectedCharacterId] as the constructor sets it:
    [options.defaultCharacterId || availableCharacters[0]?.id]. *)
Definition initial_character (d : DialogOptions) : option string :=
  if Js.truthy_str (defaultCharacterId d) then Some (defaultCharacterId d)
  else Monster.id <$> head (availableCharacters d).

(** [_onSubmitForm] on a rendered dialog: the form's character, when it
    names one, replaces the selected one; then the check runs. *)
Definition _onSubmitForm (tierConfig : Settings.AllTierConfig) (rolled : Z)
    (w : World) (d : DialogOptions) (data : FormData)
    : option Dialog.ChatMessage :=
  let selectedCharacterId :=
    if Js.truthy_ostr (form_character data) then form_character data
    else initial_character d in
  Dialog._performKnowledgeCheck h (monster d)
    (selectedCharacterId ≫= actors_get w)
    tierConfig rolled
    (form_skill data) (form_advantage data) (form_dcModifier data)
    (form_autopass data).

(** A whole interaction: the click, and the submission of the form of
    the dialog the click rendered.  Without a dialog there is no form
    to submit, so no check runs and nothing is posted. *)
Definition knowledge_check (tierConfig : Settings.AllTierConfig) (rolled : Z)
    (user : User) (w : World) (data : FormData)
    : list Notification * option Dialog.ChatMessage :=
  let r := onMonsterKnowledgeClick user w in
  (shown r, dialog r ≫= fun d => _onSubmitForm tierConfig rolled w d data).

End WithHost.

End Main.

(* ------------------------------------------------------------------ *)
(** ** Sample data *)
(* ------------------------------------------------------------------ *)

Module Sample.

(** A host without translations: a message key stands for its text, a
    formatted message is the key followed by its arguments, and no label
    table has an entry. *)
Definition host : Host.t :=
  {| Host.localize := fun key => key;
     Host.format := fun key args => key +:+ " " +:+ Js.join " " (map snd args);
     Host.damageTypes := fun _ => None;
     Host.conditionTypes := fun _ => None;
     Host.languages := fun _ => None;
     Host.creatureTypes := fun _ => None;
     Host.abilityLabel := fun _ => None;
     Host.abilityAbbreviation := fun _ => None;
     Host.toUpperCase := fun s => s |}.

Definition ability (n : Z) : Monster.Ability :=
  {| Monster.score := n; Monster.save := Monster.SaveNone |}.

(** The six abilities in the system's order, with the given scores. *)
Definition six (str dex con int wis cha : Z) : Js.obj Monster.Ability :=
  [("str", ability str); ("dex", ability dex); ("con", ability con);
   ("int", ability int); ("wis", ability wis); ("cha", ability cha)].

Definition no_trait : Monster.Trait :=
  {| Monster.value := Monster.VSet []; Monster.custom := None |}.

Definition system (abilities : Js.obj Monster.Ability)
    (dv dr di : Monster.Trait) : Monster.System :=
  {| Monster.abilities := abilities;
     Monster.dv := Some dv; Monster.dr := Some dr; Monster.di := Some di;
     Monster.ci := Some no_trait; Monster.languages := Some no_trait;
     Monster.ac_value := Some 15; Monster.hp_max := Some 7;
     Monster.hp_formula := Some "2d6";
     Monster.movement := None; Monster.senses := None;
     Monster.cr := Some 1; Monster.creature_type := None;
     Monster.legact_max := None; Monster.legres_max := None;
     Monster.skills := [("arc", 3); ("his", 1); ("nat", 0); ("rel", 2)] |}.

(** A monster without damage traits. *)
Definition goblin : Monster.Actor :=
  {| Monster.id := "a1"; Monster.name := "Goblin"; Monster.type := "npc";
     Monster.isOwner := false;
     Monster.system := system (six 8 14 10 10 8 8) no_trait no_trait no_trait |}.

(** A monster whose abilities all score 10. *)
Definition ooze : Monster.Actor :=
  {| Monster.id := "a2"; Monster.name := "Ooze"; Monster.type := "npc";
     Monster.isOwner := false;
     Monster.system := system (six 10 10 10 10 10 10) no_trait no_trait no_trait |}.

(** A monster with two resistances, a custom immunity and no
    vulnerability. *)
Definition wraith : Monster.Actor :=
  {| Monster.id := "a3"; Monster.name := "Wraith"; Monster.type := "npc";
     Monster.isOwner := false;
     Monster.system :=
       system (six 6 16 16 12 14 15) no_trait
         {| Monster.value := Monster.VSet ["acid"; "cold"]; Monster.custom := None |}
         {| Monster.value := Monster.VArray []; Monster.custom := Some "silvered" |} |}.

(** A player character. *)
Definition hero : Monster.Actor :=
  {| Monster.id := "c1"; Monster.name := "Momo"; Monster.type := "character";
     Monster.isOwner := true;
     Monster.system := system (six 10 12 14 16 13 8) no_trait no_trait no_trait |}.

(** Five strictly increasing thresholds, the lowest of them zero: the
    default difficulties with a modifier of -12. *)
Definition lowered_dcs : gmap string Z :=
  list_to_map [("tier1", 0); ("tier2", 3); ("tier3", 6); ("tier4", 10); ("tier5", 13)].

(** The default difficulties. *)
Definition default_dcs : gmap string Z := list_to_map Settings.DEFAULT_DCS.

(** A configuration whose first tier names a kind the extractor does not
    know. *)
Definition stale_config : Settings.AllTierConfig :=
  {| Settings.tier1 := {| Settings.dc := 12; Settings.info := ["weaknesses"] |};
     Settings.tier2 := Settings.tier2 Settings.default_config;
     Settings.tier3 := Settings.tier3 Settings.default_config;
     Settings.tier4 := Settings.tier4 Settings.default_config;
     Settings.tier5 := Settings.tier5 Settings.default_config |}.

(** The day of the commit, as the clock prints it. *)
Definition today : string := "11/1/2026".

(** A bundle with one tier and one item, and a bundle without tiers. *)
Definition bundle : Knowledge.t :=
  {| Knowledge.tiers :=
       [{| Knowledge.id := "tier1"; Knowledge.tier_label := Some "MKC.Tier.I";
           Knowledge.icon := Some "fas fa-star"; Knowledge.level := Some 1;
           Knowledge.unlocked := true;
           Knowledge.info := [Knowledge.scalar_item "MKC.InfoType.AC" (Knowledge.SNum 15)] |}];
     Knowledge.hasAny := true |}.

Definition empty_bundle : Knowledge.t :=
  {| Knowledge.tiers := []; Knowledge.hasAny := false |}.

(** A world without a bestiary journal, and one whose bestiary already
    has a page on the goblin and one on the ooze. *)
Definition fresh_world : Bestiary.World :=
  {| Bestiary.actors := [goblin; ooze; wraith; hero];
     Bestiary.journal := [];
     Bestiary.notifications := [] |}.

Definition known_world : Bestiary.World :=
  {| Bestiary.actors := [goblin; ooze; wraith; hero];
     Bestiary.journal :=
       [{| Bestiary.journal_name := "MKC.Journal.BestiaryName";
           Bestiary.pages :=
             [{| Bestiary.page_name := "Ooze"; Bestiary.page_type := "text";
                 Bestiary.content := "<h3>MKC.Tier.I</h3>" |};
              {| Bestiary.page_name := "Goblin"; Bestiary.page_type := "text";
                 Bestiary.content := "<h3>MKC.Tier.I</h3><h3>MKC.Tier.II</h3>" |}] |}];
     Bestiary.notifications := [] |}.

(** Users: one who targets nothing, one who targets the goblin, one who
    targets the hero. *)
Definition idle_user : Main.User :=
  {| Main.isGM := false; Main.character := None; Main.targets := [] |}.

Definition player_user : Main.User :=
  {| Main.isGM := false; Main.character := Some hero;
     Main.targets := [{| Main.actor := Some goblin |}] |}.

Definition confused_user : Main.User :=
  {| Main.isGM := false; Main.character := Some hero;
     Main.targets := [{| Main.actor := Some hero |}] |}.

(** A submitted form: a plain arcana roll. *)
Definition arcana_roll : Main.FormData :=
  {| Main.form_character := Some "c1"; Main.form_skill := "arc";
     Main.form_advantage := false; Main.form_dcModifier := 0;
     Main.form_autopass := EmptyString |}.

End Sample.

(* ------------------------------------------------------------------ *)
(** ** Text operations the settings rely on *)
(* ------------------------------------------------------------------ *)

Module JsText.

(** The code of a character of the text.  A text is the sequence of the
    bytes of its UTF-8 encoding. *)
Definition code (a : ascii) : N := N_of_ascii a.

(** [s.split(sep)] for a separator of one ASCII character: the pieces
    between the separators, in order; the empty text gives one empty
    piece. *)
Fixpoint split (sep : ascii) (s : string) : list string :=
  match s with
  | EmptyString => [EmptyString]
  | String a r =>
      if Ascii.eqb a sep then EmptyString :: split sep r
      else String a (hd EmptyString (split sep r)) :: tl (split sep r)
  end.

(** Whether a text contains a given character. *)
Fixpoint contains (c : ascii) (s : string) : bool :=
  match s with
  | EmptyString => false
  | String a r => Ascii.eqb a c || contains c r
  end.

(** The white space and line terminators [trim] removes that take one
    byte: TAB, LF, VT, FF, CR and the space. *)
Definition ws1 (a : N) : bool :=
  ((9 <=? a) && (a <=? 13) || (a =? 32))%N.

(** U+00A0, of two bytes. *)
Definition ws2 (a b : N) : bool :=
  ((a =? 0xC2) && (b =? 0xA0))%N.

(** Those of three bytes: U+1680, U+2000 to U+200A, U+2028, U+2029,
    U+202F, U+205F, U+3000 and U+FEFF. *)
Definition ws3 (a b c : N) : bool :=
  ((a =? 0xE1) && (b =? 0x9A) && (c =? 0x80)
   || (a =? 0xE2) && (b =? 0x80)
      && ((0x80 <=? c) && (c <=? 0x8A) || (c =? 0xA8) || (c =? 0xA9) || (c =? 0xAF))
   || (a =? 0xE2) && (b =? 0x81) && (c =? 0x9F)
   || (a =? 0xE3) && (b =? 0x80) && (c =? 0x80)
   || (a =? 0xEF) && (b =? 0xBB) && (c =? 0xBF))%N.

(** Whether [s.trim()] is the empty text: [s] is white space throughout. *)
Fixpoint blank (s : string) : bool :=
  match s with
  | EmptyString => true
  | String a r =>
      if ws1 (code a) then blank r
      else
        match r with
        | EmptyString => false
        | String b r2 =>
            if ws2 (code a) (code b) then blank r2
            else
              match r2 with
              | EmptyString => false
              | String c r3 =>
                  if ws3 (code a) (code b) (code c) then blank r3 else false
              end
        end
  end.

(** [c.toUpperCase()] for one ASCII character: the lower-case letters go
    to upper case, every other ASCII character stays. *)
Definition upper_ascii (a : ascii) : ascii :=
  if ((97 <=? code a) && (code a <=? 122))%N
  then ascii_of_N (code a - 32) else a.

(** [s.charAt(0).toUpperCase() + s.slice(1)], for a text that is empty or
    starts with an ASCII character (as every tier name does). *)
Definition capitalize (s : string) : string :=
  match s with
  | EmptyString => EmptyString
  | String a r => String (upper_ascii a) r
  end.

End JsText.

(* ------------------------------------------------------------------ *)
(** ** The settings store ([settings.mjs]) *)
(* ------------------------------------------------------------------ *)

Module Store.

(** The world settings of the module.  The host keeps every value in the
    type its setting was registered with, so the store has a map of
    numbers and a map of texts; a setting that was never written reads as
    its registered default. *)
Record t := { numbers : gmap string Z; texts : gmap string string }.

(** A value a setting can have. *)
Inductive Value :=
| VNum (n : Z)
| VText (s : string).

(** What [registerSettings] registers: the five difficulties with their
    defaults, and the five kind lists, each defaulting to its entry of
    [DEFAULT_TIER_INFO] joined by commas. *)
Definition registered_numbers : Js.obj Z :=
  [("dcTier1", default 0 (Js.obj_get "tier1" Settings.DEFAULT_DCS));
   ("dcTier2", default 0 (Js.obj_get "tier2" Settings.DEFAULT_DCS));
   ("dcTier3", default 0 (Js.obj_get "tier3" Settings.DEFAULT_DCS));
   ("dcTier4", default 0 (Js.obj_get "tier4" Settings.DEFAULT_DCS));
   ("dcTier5", default 0 (Js.obj_get "tier5" Settings.DEFAULT_DCS))].

Definition registered_texts : Js.obj string :=
  [("infoTier1", Js.join "," (default [] (Js.obj_get "tier1" Settings.DEFAULT_TIER_INFO)));
   ("infoTier2", Js.join "," (default [] (Js.obj_get "tier2" Settings.DEFAULT_TIER_INFO)));
   ("infoTier3", Js.join "," (default [] (Js.obj_get "tier3" Settings.DEFAULT_TIER_INFO)));
   ("infoTier4", Js.join "," (default [] (Js.obj_get "tier4" Settings.DEFAULT_TIER_INFO)));
   ("infoTier5", Js.join "," (default [] (Js.obj_get "tier5" Settings.DEFAULT_TIER_INFO)))].

(** A store in which nothing was written yet. *)
Definition fresh : t := {| numbers := ∅; texts := ∅ |}.

(** [getSetting(key)]; [None] where the host throws, on a key that was
    not registered. *)
Definition getSetting (store : t) (key : string) : option Value :=
  match Js.obj_get key registered_numbers with
  | Some d => Some (VNum (default d (numbers store !! key)))
  | None =>
      match Js.obj_get key registered_texts with
      | Some d => Some (VText (default d (texts store !! key)))
      | None => None
      end
  end.

(** [setSetting(key, value)] with a text, the only kind of value the
    module writes. *)
Definition setSetting (store : t) (key value : string) : t :=
  {| numbers := numbers store; texts := <[key := value]> (texts store) |}.

(** [`info${tier.charAt(0).toUpperCase() + tier.slice(1)}`] and the same
    with [dc]. *)
Definition info_key (tier : string) : string := "info" +:+ JsText.capitalize tier.

Definition dc_key (tier : string) : string := "dc" +:+ JsText.capitalize tier.

(** [setting.split(",").filter(s => s.trim())] *)
Definition parse_kinds (setting : string) : list string :=
  List.filter (fun s => negb (JsText.blank s)) (JsText.split "," setting).

(** [getTierInfo(tier)]; [None] where the source throws: the key is not
    registered, or the setting is a number other than zero, which has no
    [split]. *)
Definition getTierInfo (store : t) (tier : string) : option (list string) :=
  match getSetting store (info_key tier) with
  | Some (VText setting) =>
      Some (if Js.truthy_str setting then parse_kinds setting else [])
  | Some (VNum n) => if Js.truthy_num n then None else Some []
  | None => None
  end.

(** The [dc] of a tier of [getAllTierConfig()]. *)
Definition getDc (store : t) (key : string) : option Z :=
  match getSetting store key with
  | Some (VNum n) => Some n
  | _ => None
  end.

Definition getTier (store : t) (key tier : string) : option Settings.TierCfg :=
  dc ← getDc store key;
  info ← getTierInfo store tier;
  Some {| Settings.dc := dc; Settings.info := info |}.

(** [getAllTierConfig()] *)
Definition getAllTierConfig (store : t) : option Settings.AllTierConfig :=
  t1 ← getTier store "dcTier1" "tier1";
  t2 ← getTier store "dcTier2" "tier2";
  t3 ← getTier store "dcTier3" "tier3";
  t4 ← getTier store "dcTier4" "tier4";
  t5 ← getTier store "dcTier5" "tier5";
  Some {| Settings.tier1 := t1; Settings.tier2 := t2; Settings.tier3 := t3;
          Settings.tier4 := t4; Settings.tier5 := t5 |}.

(** The kinds of [INFO_TYPES], in the order of the object. *)
Definition info_keys : list string := map fst (Js.entries Settings.INFO_TYPES).

(** The kinds checked for a tier in the submitted form of the tier
    menu; [data field] is the truthiness of [data[field]]. *)
Definition checkedInfo (data : string → bool) (tier : string) : list string :=
  List.filter (fun infoKey => data (tier +:+ "-" +:+ infoKey)) info_keys.

(** One turn of the loop of [TierConfigMenu._onSubmitForm]. *)
Definition submit_tier (data : string → bool) (store : t) (tier : string) : t :=
  setSetting store (info_key tier) (Js.join "," (checkedInfo data tier)).

(** [TierConfigMenu._onSubmitForm]: the store after the form is saved. *)
Definition submit (data : string → bool) (store : t) : t :=
  fold_left (submit_tier data) ["tier1"; "tier2"; "tier3"; "tier4"; "tier5"] store.

End Store.

(* ------------------------------------------------------------------ *)
(** ** The dialog's context and the bestiary button *)
(* ------------------------------------------------------------------ *)

Module Context.

(** The [dcs] of [_prepareContext]: the difficulties the dialog shows. *)
Definition shown_dcs (store : Store.t) : option (gmap string Z) :=
  tierConfig ← Store.getAllTierConfig store;
  d1 ← Store.getDc store "dcTier1";
  d2 ← Store.getDc store "dcTier2";
  d3 ← Store.getDc store "dcTier3";
  d4 ← Store.getDc store "dcTier4";
  let dcs : gmap string Z :=
    <["tier4" := d4]> (<["tier3" := d3]> (<["tier2" := d2]> (<["tier1" := d1]> ∅))) in
  let tier5Configured :=
    Js.truthy_num (Settings.dc (Settings.tier5 tierConfig))
    && negb (Nat.eqb (length (Settings.info (Settings.tier5 tierConfig))) 0) in
  Some (if tier5Configured
        then <["tier5" := Settings.dc (Settings.tier5 tierConfig)]> dcs
        else dcs).

(** An entry of [CONFIG.DND5E.skills]. *)
Record SkillConfig := { skill_label : option string }.

(** An entry of the skill list of the dialog. *)
Record SkillOption := {
  skill_id : string;
  label : option string;
  modifier : Z;
  modifierDisplay : string
}.

Definition knowledgeSkillIds : list string := ["arc"; "his"; "nat"; "rel"].

(** One turn of the loop of [_getKnowledgeSkills]. *)
Definition skill_step (skillTable : string → option SkillConfig)
    (player : Monster.Actor) (skills : list SkillOption) (skillId : string)
    : list SkillOption :=
  match Js.obj_get skillId (Monster.skills (Monster.system player)),
        skillTable skillId with
  | Some total, Some skillConfig =>
      skills
        ++ [{| skill_id := skillId;
               label := skill_label skillConfig;
               modifier := total;
               modifierDisplay :=
                 (if 0 <=? total then "+" else EmptyString) +:+ Js.num_to_string total |}]
  | _, _ => skills
  end.

(** [_getKnowledgeSkills], for the selected character. *)
Definition _getKnowledgeSkills (skillTable : string → option SkillConfig)
    (player : Monster.Actor) : list SkillOption :=
  fold_left (skill_step skillTable player) knowledgeSkillIds [].

(** [context.selectedSkill]: [skills[0]?.id || "arc"] *)
Definition selectedSkill (skills : list SkillOption) : string :=
  Js.or_str (skill_id <$> head skills) "arc".

End Context.

Module Button.

(** The flags a chat message of the module may carry; a message without
    [knowledge] comes from elsewhere or from an older version. *)
Record Flags := {
  monsterId : string;
  knowledge : option Knowledge.t
}.

(** The flags [_sendResultToChat] puts on the message of a check. *)
Definition flags_of (m : Dialog.ChatMessage) : Flags :=
  {| monsterId := Dialog.flag_monsterId m;
     knowledge := Some (Dialog.flag_knowledge m) |}.

(** The click handler of the bestiary button of a message. *)
Definition onClick (h : Host.t) (timestamp : string) (flags : Flags)
    (w : Bestiary.World) : Bestiary.World :=
  match knowledge flags with
  | None =>
      Bestiary.notify
        (Bestiary.Error (Host.localize h "MKC.Errors.NoKnowledgeData")) w
  | Some k => Bestiary.addToBestiary h timestamp (monsterId flags) k w
  end.

End Button.

(* ================================================================== *)
(** * Properties *)
(* ================================================================== *)

(** ** Plain objects *)

Section ObjFacts.
Context {A : Type}.
Implicit Types (o : Js.obj A) (k : string) (v : A).

Lemma obj_get_set_eq k v o : Js.obj_get k (Js.obj_set k v o) = Some v.
Proof.
  induction o as [|[k' v'] r IH]; simpl.
  - by rewrite String.eqb_refl.
  - destruct (String.eqb k k') eqn:E; simpl; rewrite ?E; [by rewrite String.eqb_refl | done].
Qed.

Lemma obj_get_set_ne k k' v o :
  k ≠ k' → Js.obj_get k (Js.obj_set k' v o) = Js.obj_get k o.
Proof.
  intros Hne. apply String.eqb_neq in Hne.
  induction o as [|[k0 v0] r IH]; simpl.
  - by rewrite Hne.
  - destruct (String.eqb k' k0) eqn:E; simpl.
    + apply String.eqb_eq in E; subst k0. by rewrite Hne.
    + by rewrite IH.
Qed.

Lemma obj_get_set k k' v o :
  Js.obj_get k (Js.obj_set k' v o)
  = if String.eqb k k' then Some v else Js.obj_get k o.
Proof.
  destruct (String.eqb k k') eqn:E.
  - apply String.eqb_eq in E; subst. apply obj_get_set_eq.
  - apply String.eqb_neq in E. by apply obj_get_set_ne.
Qed.

(** An entry that is listed can be looked up, possibly shadowed by an
    earlier entry of the same key. *)
Lemma obj_get_is_Some k v o : (k, v) ∈ o → is_Some (Js.obj_get k o).
Proof.
  induction o as [|[k' v'] r IH]; [by intros ?%elem_of_nil|].
  intros [Heq|Hin]%elem_of_cons; simpl.
  - injection Heq as <- <-. rewrite String.eqb_refl. eauto.
  - destruct (String.eqb k k'); eauto.
Qed.

End ObjFacts.

(** ** The tier resolver *)

Section Resolver.
Import Dialog.
Implicit Types (t : option Z) (dcs : gmap string Z) (tier : string).

Lemma unlock_fold_lookup t dcs tier (l : list string) (acc : Js.obj bool) :
  Js.obj_get tier (fold_left (unlock_step t dcs) l acc)
  = if existsb (String.eqb tier) l && Js.truthy_onum (dcs !! tier)
    then Some (Js.ge t (default 0 (dcs !! tier)))
    else Js.obj_get tier acc.
Proof.
  revert acc. induction l as [|x l IH]; intros acc; simpl; [done|].
  rewrite IH. unfold unlock_step.
  destruct (String.eqb tier x) eqn:E; simpl.
  - apply String.eqb_eq in E; subst x.
    destruct (Js.truthy_onum (dcs !! tier)) eqn:T;
      rewrite ?andb_true_r, ?andb_false_r.
    + destruct (existsb _ l); [done|]. by rewrite obj_get_set_eq.
    + done.
  - destruct (existsb _ l && _); [done|].
    destruct (Js.truthy_onum (dcs !! x)); [|done].
    apply obj_get_set_ne. by apply String.eqb_neq.
Qed.

(** What the resolver's output holds for a key: an entry exactly for
    the five tier names whose threshold is truthy. *)
Lemma resolver_lookup t dcs tier :
  Js.obj_get tier (_determineUnlockedTiers t dcs)
  = match dcs !! tier with
    | Some d =>
        if is_tier tier && Js.truthy_num d then Some (Js.ge t d) else None
    | None => None
    end.
Proof.
  unfold _determineUnlockedTiers. rewrite unlock_fold_lookup.
  fold (is_tier tier).
  destruct (dcs !! tier) as [d|]; simpl; [done|].
  by rewrite andb_false_r.
Qed.

(** A tier without a threshold is left out, not mapped to [false]. *)
Lemma resolver_undefined_omitted t dcs tier :
  dcs !! tier = None → Js.obj_get tier (_determineUnlockedTiers t dcs) = None.
Proof. intros H. by rewrite resolver_lookup, H. Qed.


(** A threshold of zero counts as no threshold. *)
Lemma resolver_zero_omitted t dcs tier :
  dcs !! tier = Some 0 → Js.obj_get tier (_determineUnlockedTiers t dcs) = None.
Proof. intros H. rewrite resolver_lookup, H. by rewrite andb_false_r. Qed.

(** With thresholds other than zero, a tier whose threshold is no
    higher than that of an unlocked tier is unlocked too. *)
Lemma resolver_monotone t dcs (j k : string) (dj dk : Z) :
  is_tier j = true → dcs !! j = Some dj → dcs !! k = Some dk →
  dj ≠ 0 → dj ≤ dk →
  Js.obj_get k (_determineUnlockedTiers t dcs) = Some true →
  Js.obj_get j (_determineUnlockedTiers t dcs) = Some true.
Proof.
  intros Hj Hdj Hdk Hnz Hle. rewrite !resolver_lookup, Hdj, Hdk, Hj.
  unfold Js.truthy_num at 2. destruct (Z.eqb_spec dj 0) as [?|_]; [done|]. simpl.
  destruct (is_tier k && Js.truthy_num dk); [|done].
  destruct t as [x|]; simpl; [|done].
  intros [= H]. f_equal. apply Z.leb_le in H. apply Z.leb_le. lia.
Qed.

End Resolver.

(** *** The resolver on concrete thresholds *)

(** The design document's example: thresholds 12, 15, 18, 22, 25 and a
    total of 20 unlock tiers 1 to 3 and not tiers 4 and 5. *)
Example resolver_default_20 :
  Dialog._determineUnlockedTiers (Some 20) Sample.default_dcs
  = [("tier1", true); ("tier2", true); ("tier3", true);
     ("tier4", false); ("tier5", false)].
Proof. vm_compute. reflexivity. Qed.

(** C2, at a threshold of zero.  The first tier's threshold is defined
    (it is 0) and the total 5 reaches it, yet the resolver's output has no
    entry for the first tier: the test [if (dcs[tier])] takes the number 0
    for a missing threshold. *)
Theorem C2_zero_threshold_has_no_entry :
  Sample.lowered_dcs !! "tier1" = Some 0
  ∧ Js.ge (Some 5) 0 = true
  ∧ Dialog._determineUnlockedTiers (Some 5) Sample.lowered_dcs
    = [("tier2", true); ("tier3", false); ("tier4", false); ("tier5", false)]
  ∧ Js.obj_get "tier1" (Dialog._determineUnlockedTiers (Some 5) Sample.lowered_dcs)
    = None.
Proof. vm_compute. repeat split; reflexivity. Qed.

(** C3, at strictly increasing thresholds 0, 3, 6, 10, 13 and a total of
    5.  The second tier is unlocked and the first tier, below it, is not:
    its threshold of zero removes it from the resolver's output. *)
Theorem C3_lower_tier_not_unlocked :
  Js.obj_get "tier2" (Dialog._determineUnlockedTiers (Some 5) Sample.lowered_dcs)
  = Some true
  ∧ Js.obj_get "tier1" (Dialog._determineUnlockedTiers (Some 5) Sample.lowered_dcs)
    ≠ Some true
  ∧ map (fun tier => Sample.lowered_dcs !! tier) Dialog.tierOrder
    = [Some 0; Some 3; Some 6; Some 10; Some 13].
Proof. vm_compute. split; [reflexivity | split; [discriminate | reflexivity]]. Qed.

(** ** Autopass *)

Section Autopass.
Import Dialog.
Implicit Types (tierConfig : Settings.AllTierConfig) (tier : string).

(** The thresholds of a check: the configured difficulty plus the
    modifier, for exactly the tiers the check has. *)
Lemma check_dcs_lookup tierConfig (dcModifier : Z) tier :
  check_dcs tierConfig dcModifier !! tier
  = if configured tierConfig tier
    then (fun c => Settings.dc c + dcModifier) <$> Settings.tier_get tierConfig tier
    else None.
Proof.
  unfold check_dcs, configured, Settings.tier_get, is_tier, tierOrder.
  destruct (String.eqb_spec tier "tier5") as [->|H5].
  - destruct (_ && _); simpl; by simplify_map_eq.
  - destruct (String.eqb_spec tier "tier1") as [->|H1];
      [destruct (_ && _); by simplify_map_eq|].
    destruct (String.eqb_spec tier "tier2") as [->|H2];
      [destruct (_ && _); by simplify_map_eq|].
    destruct (String.eqb_spec tier "tier3") as [->|H3];
      [destruct (_ && _); by simplify_map_eq|].
    destruct (String.eqb_spec tier "tier4") as [->|H4];
      [destruct (_ && _); by simplify_map_eq|].
    simpl. destruct (_ && _); rewrite !lookup_insert_ne by done;
      rewrite lookup_empty; by destruct (_ || _).
Qed.



End Autopass.

(** The design document's example: an autopass at tier 3 with modifier +2
    on the default difficulties has the effective total 20 and unlocks
    tiers 1 to 3 only. *)
Example autopass_tier3_plus2 :
  let dcs := Dialog.check_dcs Settings.default_config 2 in
  Dialog.effective_total dcs "tier3" None = Some 20
  ∧ Dialog._determineUnlockedTiers (Dialog.effective_total dcs "tier3" None) dcs
    = [("tier1", true); ("tier2", true); ("tier3", true); ("tier4", false)].
Proof. vm_compute. split; reflexivity. Qed.

(** C4, at an autopass on tier 1 with modifier -12 and the default
    difficulties.  The effective total is 12 - 12 = 0, the first tier's
    threshold, and the check unlocks nothing, not even the first tier:
    its threshold of zero removes it from the resolver's output. *)
Theorem C4_autopass_unlocks_nothing :
  let dcs := Dialog.check_dcs Settings.default_config (-12) in
  Dialog.effective_total dcs "tier1" None = Some 0
  ∧ Dialog._determineUnlockedTiers (Dialog.effective_total dcs "tier1" None) dcs
    = [("tier2", false); ("tier3", false); ("tier4", false)]
  ∧ (λ m, (Dialog.isAutopass m, Dialog.msg_tiers m, Dialog.hasKnowledge m))
      <$> Dialog._performKnowledgeCheck Sample.host Sample.goblin (Some Sample.hero)
            Settings.default_config 0 "arc" false (-12) "tier1"
    = Some (true, [], false).
Proof. vm_compute. repeat split; reflexivity. Qed.

(** ** Gathering *)

Section Gather.
Import Knowledge Dialog.
Variable h : Host.t.
Variable monster : Monster.Actor.
Implicit Types (tierConfig : Settings.AllTierConfig) (k : Knowledge.t).

(** A [null] result adds nothing, and the loop goes on to the next kind. *)
Lemma push_info_items (acc : list InfoItem) (infoType : string) :
  push_info h monster acc infoType
  = acc ++ items_of (Extract._getInfoByType h monster infoType).
Proof.
  unfold push_info. destruct (Extract._getInfoByType h monster infoType); simpl;
    [by rewrite app_nil_r | done | done].
Qed.

Lemma extract_fold (infoTypes : list string) (acc : list InfoItem) :
  fold_left (push_info h monster) infoTypes acc
  = acc ++ flat_map (fun infoType => items_of (Extract._getInfoByType h monster infoType))
             infoTypes.
Proof.
  revert acc. induction infoTypes as [|x l IH]; intros acc; simpl.
  - by rewrite app_nil_r.
  - by rewrite IH, push_info_items, <- app_assoc.
Qed.

(** A kind that [INFO_TYPES] does not list extracts to nothing. *)
Lemma unknown_kind_is_null (infoType : string) :
  Js.obj_get infoType Settings.INFO_TYPES = None →
  Extract._getInfoByType h monster infoType = InfoNull.
Proof.
  unfold Extract._getInfoByType, Settings.INFO_TYPES. simpl.
  repeat (destruct (String.eqb infoType _); [discriminate|]). done.
Qed.

(** A step of the gatherer keeps whatever holds of every tier it adds. *)
Lemma gather_step_Forall (P : TierData → Prop) tierConfig :
  (∀ tierId c,
     Settings.tier_get tierConfig tierId = Some c →
     Settings.info c ≠ [] →
     fold_left (push_info h monster) (Settings.info c) [] ≠ [] →
     P (set_info (new_tierData h tierId)
          (fold_left (push_info h monster) (Settings.info c) []))) →
  ∀ k e, Forall P (tiers k) → Forall P (tiers (gather_step h monster tierConfig k e)).
Proof.
  intros HP k [tierId [|]] Hk; unfold gather_step; [|done].
  destruct (Settings.tier_get tierConfig tierId) as [c|] eqn:Hc; [|done].
  specialize (HP tierId c Hc). cbv zeta.
  remember (fold_left (push_info h monster) (Settings.info c) []) as found eqn:Hf.
  destruct (Settings.info c) as [|x l]; [done|]. cbn [tiers info set_info].
  destruct found as [|y r]; [done|].
  apply Forall_app; split; [done|]. apply Forall_singleton.
  by apply HP.
Qed.

Lemma gather_Forall (P : TierData → Prop) tierConfig :
  (∀ tierId c,
     Settings.tier_get tierConfig tierId = Some c →
     Settings.info c ≠ [] →
     fold_left (push_info h monster) (Settings.info c) [] ≠ [] →
     P (set_info (new_tierData h tierId)
          (fold_left (push_info h monster) (Settings.info c) []))) →
  ∀ unlockedTiers, Forall P (tiers (_gatherKnowledge h monster unlockedTiers tierConfig)).
Proof.
  intros HP unlockedTiers. unfold _gatherKnowledge, Js.entries.
  assert (∀ l k, Forall P (tiers k) →
                 Forall P (tiers (fold_left (gather_step h monster tierConfig) l k)))
    as Hfold.
  { induction l as [|e l IH]; intros k Hk; simpl; [done|].
    apply IH. by apply gather_step_Forall. }
  apply Hfold. constructor.
Qed.

(** The flag is raised by an unlocked tier with a non-empty list of
    kinds, whatever the extraction of those kinds gives. *)
Lemma gather_fold_hasAny tierConfig (l : list (string * bool)) k :
  hasAny (fold_left (gather_step h monster tierConfig) l k)
  = hasAny k
    || existsb (fun e : string * bool =>
                  snd e && match Settings.tier_get tierConfig (fst e) with
                           | Some c => negb (Nat.eqb (length (Settings.info c)) 0)
                           | None => false
                           end) l.
Proof.
  revert k. induction l as [|[tierId u] l IH]; intros k; simpl.
  - by rewrite orb_false_r.
  - rewrite IH. destruct u; simpl; [|done].
    destruct (Settings.tier_get tierConfig tierId) as [c|]; simpl; [|done].
    destruct (Settings.info c); simpl; [done|]. by rewrite orb_true_r.
Qed.

(** A bundle with a tier has the flag raised. *)
Lemma gather_fold_tiers_hasAny tierConfig (l : list (string * bool)) k :
  (tiers k ≠ [] → hasAny k = true) →
  tiers (fold_left (gather_step h monster tierConfig) l k) ≠ [] →
  hasAny (fold_left (gather_step h monster tierConfig) l k) = true.
Proof.
  revert k. induction l as [|[tierId u] l IH]; intros k Hk; simpl; [done|].
  apply IH. destruct u; [|done].
  destruct (Settings.tier_get tierConfig tierId) as [c|]; [|done].
  by destruct (Settings.info c).
Qed.

Lemma gather_tiers_hasAny tierConfig (unlockedTiers : Js.obj bool) :
  tiers (_gatherKnowledge h monster unlockedTiers tierConfig) ≠ [] →
  hasAny (_gatherKnowledge h monster unlockedTiers tierConfig) = true.
Proof. by apply gather_fold_tiers_hasAny. Qed.

(** What a turn of the gatherer adds to the tiers does not depend on the
    bundle so far. *)
Lemma gather_step_tiers tierConfig k (e : string * bool) :
  tiers (gather_step h monster tierConfig k e)
  = tiers k
    ++ tiers (gather_step h monster tierConfig {| tiers := []; hasAny := false |} e).
Proof.
  destruct e as [tierId [|]]; simpl; [|by rewrite app_nil_r].
  destruct (Settings.tier_get tierConfig tierId) as [c|]; [|by rewrite app_nil_r].
  destruct (Settings.info c) as [|x l]; [by rewrite app_nil_r|]. cbn [tiers].
  destruct (fold_left (push_info h monster) (x :: l) []);
    [by rewrite app_nil_r | done].
Qed.

Lemma gather_tiers_flat tierConfig (u : Js.obj bool) :
  tiers (_gatherKnowledge h monster u tierConfig)
  = flat_map
      (fun e => tiers (gather_step h monster tierConfig
                         {| tiers := []; hasAny := false |} e)) u.
Proof.
  unfold _gatherKnowledge, Js.entries.
  assert (∀ l k,
            tiers (fold_left (gather_step h monster tierConfig) l k)
            = tiers k
              ++ flat_map
                   (fun e => tiers (gather_step h monster tierConfig
                                      {| tiers := []; hasAny := false |} e)) l)
    as Hfold.
  { induction l as [|e l IH]; intros k; simpl; [by rewrite app_nil_r|].
    by rewrite IH, gather_step_tiers, <- app_assoc. }
  by rewrite Hfold.
Qed.

(** What one entry contributes to the tiers: nothing when it is locked
    or has no configuration; else the tier made of the items of its
    configured kinds, unless there is none. *)
Lemma gather_step_exact tierConfig (e : string * bool) :
  tiers (gather_step h monster tierConfig {| tiers := []; hasAny := false |} e)
  = if snd e
    then match Settings.tier_get tierConfig (fst e) with
         | Some c =>
             match flat_map
                     (fun infoType =>
                        items_of (Extract._getInfoByType h monster infoType))
                     (Settings.info c) with
             | [] => []
             | item :: items => [set_info (new_tierData h (fst e)) (item :: items)]
             end
         | None => []
         end
    else [].
Proof.
  destruct e as [tierId [|]]; simpl; [|done].
  destruct (Settings.tier_get tierConfig tierId) as [c|]; [|done].
  destruct (Settings.info c) as [|x l] eqn:Hi; [done|]. cbn [tiers].
  rewrite <- Hi. unfold set_info at 1. cbn [info]. rewrite extract_fold. simpl.
  by destruct (flat_map _ _).
Qed.

(** A kind whose extraction gives [null] leaves the items of the kinds
    before it and after it as they are. *)
Lemma extract_skips_null (before after : list string) (failed : string) :
  Extract._getInfoByType h monster failed = InfoNull →
  fold_left (push_info h monster) (before ++ failed :: after) []
  = fold_left (push_info h monster) before []
    ++ fold_left (push_info h monster) after [].
Proof.
  intros Hnull. rewrite !extract_fold. simpl.
  rewrite flat_map_app. simpl. by rewrite Hnull.
Qed.

End Gather.

(** C5.  The tiers of the gathered bundle are, entry by entry in the
    order of the unlocked-tier set, the tier of each unlocked entry that
    has a configuration: its items are the items of its configured kinds
    one after the other in configured order, and the tier is left out
    when there is no such item, as it is when no kind is configured.  So
    every tier of the bundle has a non-empty configured list and at least
    one item.  A kind whose extraction fails contributes no item and the
    kinds before and after it keep theirs; a kind that is not one of
    [INFO_TYPES] is such a kind. *)
Theorem C5_gathered_tiers (h : Host.t) (monster : Monster.Actor)
    (unlockedTiers : Js.obj bool) (tierConfig : Settings.AllTierConfig) :
  Knowledge.tiers (Dialog._gatherKnowledge h monster unlockedTiers tierConfig)
  = flat_map
      (fun e : string * bool =>
         if snd e
         then match Settings.tier_get tierConfig (fst e) with
              | Some c =>
                  match flat_map
                          (fun infoType =>
                             Knowledge.items_of
                               (Extract._getInfoByType h monster infoType))
                          (Settings.info c) with
                  | [] => []
                  | item :: items =>
                      [Dialog.set_info (Dialog.new_tierData h (fst e)) (item :: items)]
                  end
              | None => []
              end
         else [])
      (Js.entries unlockedTiers)
  ∧ Forall
      (fun td : Knowledge.TierData =>
         ∃ c : Settings.TierCfg,
           Settings.tier_get tierConfig (Knowledge.id td) = Some c
           ∧ Settings.info c ≠ []
           ∧ Knowledge.info td ≠ []
           ∧ Knowledge.info td
             = flat_map
                 (fun infoType =>
                    Knowledge.items_of (Extract._getInfoByType h monster infoType))
                 (Settings.info c))
      (Knowledge.tiers (Dialog._gatherKnowledge h monster unlockedTiers tierConfig))
  ∧ (∀ (before after : list string) (failed : string),
       Extract._getInfoByType h monster failed = Knowledge.InfoNull →
       fold_left (Dialog.push_info h monster) (before ++ failed :: after) []
       = fold_left (Dialog.push_info h monster) before []
         ++ fold_left (Dialog.push_info h monster) after [])
  ∧ ∀ infoType : string,
      Js.obj_get infoType Settings.INFO_TYPES = None →
      Extract._getInfoByType h monster infoType = Knowledge.InfoNull
      ∧ Knowledge.items_of (Extract._getInfoByType h monster infoType) = [].
Proof.
  split; [|split; [|split]].
  - rewrite gather_tiers_flat. apply flat_map_ext. intros e.
    apply gather_step_exact.
  - apply gather_Forall. intros tierId c Hc Hi Hf. exists c.
    repeat split; [done | done | done |]. simpl. by rewrite extract_fold.
  - intros before after failed Hnull. by apply extract_skips_null.
  - intros infoType Hk. by rewrite unknown_kind_is_null.
Qed.

(** A first tier configured with an unknown kind between two known ones:
    the unknown kind gives no item and the tier still has the items of
    the other two, in configured order; a second tier, locked, is not in
    the bundle. *)
Example gather_around_failed_kind :
  let tierConfig :=
    {| Settings.tier1 :=
         {| Settings.dc := 12; Settings.info := ["ac"; "weaknesses"; "cr"] |};
       Settings.tier2 := Settings.tier2 Settings.default_config;
       Settings.tier3 := Settings.tier3 Settings.default_config;
       Settings.tier4 := Settings.tier4 Settings.default_config;
       Settings.tier5 := Settings.tier5 Settings.default_config |} in
  map (fun td => (Knowledge.id td, Knowledge.info td))
    (Knowledge.tiers
       (Dialog._gatherKnowledge Sample.host Sample.goblin
          [("tier1", true); ("tier2", false)] tierConfig))
  = [("tier1",
      [Knowledge.scalar_item "MKC.InfoType.AC" (Knowledge.SNum 15);
       Knowledge.scalar_item "MKC.InfoType.CR" (Knowledge.SNum 1)])].
Proof. vm_compute. reflexivity. Qed.

(** The design document's example for C5: thresholds [{tier1: 10}], no
    information kind configured for the first tier, a total of 15: the
    tier is unlocked and the bundle has no tier. *)
Example gather_empty_config :
  let dcs : gmap string Z := {[ "tier1" := 10 ]} in
  let tierConfig :=
    {| Settings.tier1 := {| Settings.dc := 10; Settings.info := [] |};
       Settings.tier2 := Settings.tier2 Settings.default_config;
       Settings.tier3 := Settings.tier3 Settings.default_config;
       Settings.tier4 := Settings.tier4 Settings.default_config;
       Settings.tier5 := Settings.tier5 Settings.default_config |} in
  Dialog._determineUnlockedTiers (Some 15) dcs = [("tier1", true)]
  ∧ Knowledge.tiers
      (Dialog._gatherKnowledge Sample.host Sample.goblin
         (Dialog._determineUnlockedTiers (Some 15) dcs) tierConfig) = [].
Proof. vm_compute. split; reflexivity. Qed.

(** C1, at an unlocked first tier whose only configured kind,
    [weaknesses], is not a kind the extractor knows.  The extraction of the
    tier yields no item and the bundle has no tier, yet [hasAny] is true:
    the flag is set before the kinds are extracted.  The same bundle comes
    out of a whole check that rolls a total of 13 against the default
    difficulties. *)
Theorem C1_flag_raised_without_items :
  Knowledge.items_of (Extract._getInfoByType Sample.host Sample.goblin "weaknesses") = []
  ∧ Dialog._gatherKnowledge Sample.host Sample.goblin [("tier1", true)]
      Sample.stale_config
    = {| Knowledge.tiers := []; Knowledge.hasAny := true |}
  ∧ Dialog.flag_knowledge
      <$> Dialog._performKnowledgeCheck Sample.host Sample.goblin (Some Sample.hero)
            Sample.stale_config 13 "arc" false 0 EmptyString
    = Some {| Knowledge.tiers := []; Knowledge.hasAny := true |}.
Proof. vm_compute. repeat split; reflexivity. Qed.

(** ** Damage traits *)

(** C6.  The resistances extraction gives one list item per damage-trait
    category (vulnerabilities, resistances, immunities, in this order)
    whose formatted list is not empty, carrying that list; when all three
    are empty it gives the single placeholder item instead.  The formatted
    list of a category is the label of each of its types, the type itself
    where the system has no label for it, followed by the custom text when
    there is one. *)
Theorem C6_resistances_items (h : Host.t) (monster : Monster.Actor) :
  let sys := Monster.system monster in
  let categories :=
    [("MKC.Chat.DamageVulnerabilities", Extract._formatDamageTraits h (Monster.dv sys));
     ("MKC.Chat.DamageResistances", Extract._formatDamageTraits h (Monster.dr sys));
     ("MKC.Chat.DamageImmunities", Extract._formatDamageTraits h (Monster.di sys))] in
  Extract._getResistancesInfo h monster
  = match List.filter (fun c => Js.truthy_len (snd c)) categories with
    | [] =>
        Knowledge.InfoOne
          (Knowledge.scalar_item (Host.localize h "MKC.Chat.DamageTraits")
             (Knowledge.SStr (Host.localize h "MKC.Chat.NoDamageTraits")))
    | c :: cs =>
        Knowledge.InfoMany
          (map (fun c => Knowledge.list_item (Host.localize h (fst c)) (snd c) EmptyString)
               (c :: cs))
    end
  ∧ (∀ (types : list string) (custom : option string),
       let labels := map (fun type => Js.or_str (Host.damageTypes h type) type) types in
       let free := if Js.truthy_ostr custom then [default EmptyString custom] else [] in
       Extract._formatDamageTraits h
         (Some {| Monster.value := Monster.VSet types; Monster.custom := custom |})
       = labels ++ free
       ∧ Extract._formatDamageTraits h
           (Some {| Monster.value := Monster.VArray types; Monster.custom := custom |})
         = labels ++ free)
  ∧ Extract._formatDamageTraits h None = [].
Proof.
  intros sys categories. split; [|split].
  - unfold Extract._getResistancesInfo, categories. fold sys.
    destruct (Extract._formatDamageTraits h (Monster.dv sys));
      destruct (Extract._formatDamageTraits h (Monster.dr sys));
      destruct (Extract._formatDamageTraits h (Monster.di sys)); reflexivity.
  - intros types custom labels free. subst labels free.
    unfold Extract._formatDamageTraits, Extract.push_custom. simpl.
    destruct custom as [c|]; simpl; [|by rewrite app_nil_r].
    destruct (Js.truthy_str c); simpl; by rewrite ?app_nil_r.
  - reflexivity.
Qed.

(** A monster without damage traits gets exactly one item, the
    placeholder; one with resistances and a custom immunity gets an item
    for each of these two categories. *)
Example resistances_goblin :
  Knowledge.items_of (Extract._getResistancesInfo Sample.host Sample.goblin)
  = [Knowledge.scalar_item "MKC.Chat.DamageTraits" (Knowledge.SStr "MKC.Chat.NoDamageTraits")].
Proof. reflexivity. Qed.

Example resistances_wraith :
  Knowledge.items_of (Extract._getResistancesInfo Sample.host Sample.wraith)
  = [Knowledge.list_item "MKC.Chat.DamageResistances" ["acid"; "cold"] EmptyString;
     Knowledge.list_item "MKC.Chat.DamageImmunities" ["silvered"] EmptyString].
Proof. reflexivity. Qed.

(** ** The highest and the lowest ability *)

(** The two scans differ in the comparison only.  [better n e] is the
    test that replaces the running extreme [e] by the score [n], and
    [lt a b] says that [b] beats [a]. *)
Section Scan.
Import Extract.
Variable h : Host.t.
Variable better : Z → ext → bool.
Variable lt : Z → Z → Prop.
Variable step : Stat → string * Monster.Ability → Stat.

Hypothesis step_eq : ∀ acc e,
  step acc e
  = if better (Monster.score (snd e)) (stat_value acc)
    then stat_of h (fst e) (snd e) else acc.
Hypothesis better_Fin : ∀ n m, better n (Fin m) = true ↔ lt m n.
Hypothesis better_trans : ∀ n m e, better n e = true → lt n m → better m e = true.
Hypothesis better_between : ∀ n m e, better n e = false → better m e = true → lt n m.

(** Either no entry beats the start value and the scan returns it, or the
    scan returns the first entry that beats the start value, every entry
    before it and is beaten by no entry after it. *)
Lemma scan_spec (l : list (string * Monster.Ability)) (acc : Stat) :
  (fold_left step l acc = acc
   ∧ Forall (fun e => better (Monster.score (snd e)) (stat_value acc) = false) l)
  ∨ ∃ pre id ab post,
      l = pre ++ (id, ab) :: post
      ∧ fold_left step l acc = stat_of h id ab
      ∧ better (Monster.score ab) (stat_value acc) = true
      ∧ Forall (fun e => lt (Monster.score (snd e)) (Monster.score ab)) pre
      ∧ Forall (fun e => ¬ lt (Monster.score ab) (Monster.score (snd e))) post.
Proof.
  revert acc. induction l as [|[id ab] l IH]; intros acc; simpl.
  - left. by split.
  - rewrite step_eq. simpl.
    destruct (better (Monster.score ab) (stat_value acc)) eqn:Hb.
    + right. destruct (IH (stat_of h id ab)) as [[Heq Hall]|Hex].
      * exists [], id, ab, l. repeat split; [done | done | done |].
        eapply Forall_impl; [exact Hall|]. simpl. intros e He Hlt.
        apply better_Fin in Hlt. congruence.
      * destruct Hex as (pre & id' & ab' & post & -> & Hr & Hb' & Hpre & Hpost).
        simpl in Hb'. apply better_Fin in Hb'.
        exists ((id, ab) :: pre), id', ab', post.
        repeat split; [done | eauto | by constructor | done].
    + destruct (IH acc) as [[Heq Hall]|Hex].
      * left. split; [done|]. by constructor.
      * right. destruct Hex as (pre & id' & ab' & post & -> & Hr & Hb' & Hpre & Hpost).
        exists ((id, ab) :: pre), id', ab', post.
        repeat split; [done | done | | done]. constructor; [|done]. simpl. eauto.
Qed.

(** From an infinite start value every score wins, so a non-empty scan
    returns an entry. *)
Lemma scan_nonempty (l : list (string * Monster.Ability)) (acc : Stat) :
  (∀ n, better n (stat_value acc) = true) →
  l ≠ [] →
  ∃ pre id ab post,
    l = pre ++ (id, ab) :: post
    ∧ fold_left step l acc = stat_of h id ab
    ∧ Forall (fun e => lt (Monster.score (snd e)) (Monster.score ab)) pre
    ∧ Forall (fun e => ¬ lt (Monster.score ab) (Monster.score (snd e))) post.
Proof.
  intros Hinf Hne. destruct (scan_spec l acc) as [[_ Hall]|Hex].
  - destruct l as [|e l]; [done|]. apply Forall_cons in Hall as [He _].
    rewrite Hinf in He. done.
  - destruct Hex as (pre & id & ab & post & ? & ? & _ & ? & ?). eauto 10.
Qed.

End Scan.

Section Extremes.
Import Extract.
Variable h : Host.t.
Variable monster : Monster.Actor.

Local Ltac ext_cases :=
  intros; repeat match goal with e : ext |- _ => destruct e end; simpl in *;
  rewrite ?Z.ltb_lt, ?Z.ltb_ge in *; try done; try lia.

(** The scan of [_getHighestStat] ends on the first entry of the highest
    score. *)
Lemma highest_scan (l : list (string * Monster.Ability)) :
  l ≠ [] →
  ∃ pre id ab post,
    l = pre ++ (id, ab) :: post
    ∧ fold_left (highest_step h) l highest_init = stat_of h id ab
    ∧ Forall (fun e => Monster.score (snd e) < Monster.score ab) pre
    ∧ Forall (fun e => Monster.score (snd e) ≤ Monster.score ab) post.
Proof.
  intros Hne.
  destruct (scan_nonempty h gt_ext (fun a b => a < b) (highest_step h))
    with (l := l) (acc := highest_init)
    as (pre & id & ab & post & ? & ? & ? & Hpost); try done.
  - intros n m. simpl. apply Z.ltb_lt.
  - ext_cases.
  - ext_cases.
  - exists pre, id, ab, post. repeat split; try done.
    eapply Forall_impl; [exact Hpost|]. simpl. lia.
Qed.

(** The scan of [_getLowestStat] ends on the first entry of the lowest
    score. *)
Lemma lowest_scan (l : list (string * Monster.Ability)) :
  l ≠ [] →
  ∃ pre id ab post,
    l = pre ++ (id, ab) :: post
    ∧ fold_left (lowest_step h) l lowest_init = stat_of h id ab
    ∧ Forall (fun e => Monster.score ab < Monster.score (snd e)) pre
    ∧ Forall (fun e => Monster.score ab ≤ Monster.score (snd e)) post.
Proof.
  intros Hne.
  destruct (scan_nonempty h lt_ext (fun a b => b < a) (lowest_step h))
    with (l := l) (acc := lowest_init)
    as (pre & id & ab & post & ? & ? & ? & Hpost); try done.
  - intros n m. simpl. apply Z.ltb_lt.
  - ext_cases.
  - ext_cases.
  - exists pre, id, ab, post. repeat split; try done.
    eapply Forall_impl; [exact Hpost|]. simpl. lia.
Qed.

(** The entry a scan selected is returned unless its key is the empty
    string, which the final test [highest.id ? highest : null] takes for
    no entry at all. *)
Lemma stat_result_of (id : string) (ab : Monster.Ability) :
  stat_result (stat_of h id ab)
  = if Js.truthy_str id then Some (stat_of h id ab) else None.
Proof. reflexivity. Qed.

End Extremes.

(** C7.  On a non-empty ability map (whose keys are non-empty strings,
    as ability identifiers are) the highest-stat extraction returns an
    entry whose score no entry exceeds and which every entry before it
    in the map's order falls short of: the first entry of the maximum
    score.  The lowest-stat extraction returns the first entry of the
    minimum score.  When all scores are equal both return the first entry
    of the map. *)
Theorem C7_first_extreme (h : Host.t) (monster : Monster.Actor) :
  let abilities := Js.entries (Monster.abilities (Monster.system monster)) in
  abilities ≠ [] →
  Forall (fun e => fst e ≠ EmptyString) abilities →
  (∃ pre id ab post,
     abilities = pre ++ (id, ab) :: post
     ∧ Forall (fun e => Monster.score (snd e) < Monster.score ab) pre
     ∧ Forall (fun e => Monster.score (snd e) ≤ Monster.score ab) post
     ∧ Extract._getHighestStat h monster = Some (Extract.stat_of h id ab))
  ∧ (∃ pre id ab post,
       abilities = pre ++ (id, ab) :: post
       ∧ Forall (fun e => Monster.score ab < Monster.score (snd e)) pre
       ∧ Forall (fun e => Monster.score ab ≤ Monster.score (snd e)) post
       ∧ Extract._getLowestStat h monster = Some (Extract.stat_of h id ab))
  ∧ ∀ score : Z,
      Forall (fun e => Monster.score (snd e) = score) abilities →
      ∃ id ab rest,
        abilities = (id, ab) :: rest
        ∧ Extract._getHighestStat h monster = Some (Extract.stat_of h id ab)
        ∧ Extract._getLowestStat h monster = Some (Extract.stat_of h id ab).
Proof.
  intros abilities Hne Hids.
  assert (∀ pre id ab post,
            abilities = pre ++ (id, ab) :: post → Js.truthy_str id = true) as Hid.
  { intros pre id ab post Heq. rewrite Heq in Hids.
    apply Forall_app in Hids as [_ Hids]. apply Forall_cons in Hids as [Hids _].
    simpl in Hids. unfold Js.truthy_str.
    destruct (String.eqb_spec id EmptyString); done. }
  destruct (highest_scan h abilities Hne)
    as (pre & id & ab & post & Heq & Hr & Hpre & Hpost).
  destruct (lowest_scan h abilities Hne)
    as (pre' & id' & ab' & post' & Heq' & Hr' & Hpre' & Hpost').
  assert (Extract._getHighestStat h monster = Some (Extract.stat_of h id ab)) as Hhi.
  { unfold Extract._getHighestStat. fold abilities.
    by rewrite Hr, stat_result_of, (Hid _ _ _ _ Heq). }
  assert (Extract._getLowestStat h monster = Some (Extract.stat_of h id' ab')) as Hlo.
  { unfold Extract._getLowestStat. fold abilities.
    by rewrite Hr', stat_result_of, (Hid _ _ _ _ Heq'). }
  split; [by exists pre, id, ab, post|].
  split; [by exists pre', id', ab', post'|].
  intros score Hall.
  assert (pre = []) as ->.
  { destruct pre as [|e pre]; [done|]. exfalso.
    apply Forall_cons in Hpre as [He _].
    rewrite Heq in Hall. simpl in Hall. apply Forall_cons in Hall as [Hs Hall].
    apply Forall_app in Hall as [_ Hall]. apply Forall_cons in Hall as [Hs' _].
    simpl in *. lia. }
  assert (pre' = []) as ->.
  { destruct pre' as [|e pre']; [done|]. exfalso.
    apply Forall_cons in Hpre' as [He _].
    rewrite Heq' in Hall. simpl in Hall. apply Forall_cons in Hall as [Hs Hall].
    apply Forall_app in Hall as [_ Hall]. apply Forall_cons in Hall as [Hs' _].
    simpl in *. lia. }
  simpl in Heq, Heq'. exists id, ab, post. split; [done|]. split; [done|].
  rewrite Hlo. rewrite Heq in Heq'. by injection Heq' as <- <- _.
Qed.

Lemma C7_first_extreme_witness :
  let abilities := Js.entries (Monster.abilities (Monster.system Sample.ooze)) in
  ∃ id ab rest,
    abilities = (id, ab) :: rest
    ∧ Extract._getHighestStat Sample.host Sample.ooze = Some (Extract.stat_of Sample.host id ab)
    ∧ Extract._getLowestStat Sample.host Sample.ooze = Some (Extract.stat_of Sample.host id ab).
Proof.
  intros abilities.
  refine (proj2 (proj2 (C7_first_extreme Sample.host Sample.ooze _ _)) 10 _).
  - discriminate.
  - repeat constructor; discriminate.
  - repeat constructor.
Defined.

(** All scores equal to 10: the highest and the lowest stat are both the
    first ability, strength. *)
Example extremes_of_ooze :
  Extract.stat_id <$> Extract._getHighestStat Sample.host Sample.ooze = Some (Some "str")
  ∧ Extract.stat_id <$> Extract._getLowestStat Sample.host Sample.ooze = Some (Some "str").
Proof. vm_compute. split; reflexivity. Qed.

(** The scan by itself needs no assumption on the keys, the final test
    does: a map with the single key [EmptyString] is not empty and the
    extraction returns nothing for it. *)
Example extreme_of_empty_key :
  Extract._getHighestStat Sample.host
    {| Monster.id := "a4"; Monster.name := "Nameless"; Monster.type := "npc";
       Monster.isOwner := false;
       Monster.system :=
         Sample.system [(EmptyString, Sample.ability 10)]
           Sample.no_trait Sample.no_trait Sample.no_trait |}
  = None.
Proof. reflexivity. Qed.

(** ** The bestiary *)

Section StringFacts.

Lemma string_app_nil_r (s : string) : s +:+ EmptyString = s.
Proof.
  induction s as [|a s IH]; [reflexivity|].
  change (String a (s +:+ EmptyString) = String a s). by f_equal.
Qed.

Lemma string_app_nil_l (s : string) : EmptyString +:+ s = s.
Proof. reflexivity. Qed.

Lemma string_app_assoc (s1 s2 s3 : string) : (s1 +:+ s2) +:+ s3 = s1 +:+ s2 +:+ s3.
Proof.
  induction s1 as [|a s1 IH]; [reflexivity|].
  change (String a ((s1 +:+ s2) +:+ s3) = String a (s1 +:+ s2 +:+ s3)). by f_equal.
Qed.

(** A loop that only appends to its accumulator appends the same text to
    any start. *)
Lemma fold_append {A} (f : A → string) (l : list A) (acc : string) :
  fold_left (fun acc x => acc +:+ f x) l acc
  = acc +:+ fold_left (fun acc x => acc +:+ f x) l EmptyString.
Proof.
  revert acc. induction l as [|x l IH]; intros acc; simpl.
  - by rewrite string_app_nil_r.
  - rewrite IH, (IH (EmptyString +:+ f x)), string_app_nil_l.
    by rewrite string_app_assoc.
Qed.

End StringFacts.

Section BestiaryFacts.
Import Knowledge Bestiary.
Variable h : Host.t.
Variable timestamp : string.

(** A tier appends its own text to the page so far. *)
Lemma tier_html_append (acc : string) (tier : TierData) :
  tier_html acc tier = acc +:+ tier_html EmptyString tier.
Proof.
  unfold tier_html.
  rewrite (fold_append info_html), (fold_append info_html _ (EmptyString +:+ _)).
  simpl. by rewrite !string_app_assoc.
Qed.

(** The page of a bundle is the timestamp line followed by the text of
    its tiers. *)
Lemma build_header (knowledge : Knowledge.t) (monsterName : string) :
  buildBestiaryContent h timestamp knowledge monsterName
  = header h timestamp
      +:+ fold_left (fun acc tier => acc +:+ tier_html EmptyString tier)
            (tiers knowledge) EmptyString.
Proof.
  unfold buildBestiaryContent. rewrite <- fold_append.
  generalize (header h timestamp). induction (tiers knowledge) as [|t l IH]; intros acc.
  - done.
  - simpl. rewrite IH. by rewrite <- tier_html_append.
Qed.

(** The page of a bundle without tiers is the timestamp line alone. *)
Lemma build_no_tiers (knowledge : Knowledge.t) (monsterName : string) :
  tiers knowledge = [] →
  buildBestiaryContent h timestamp knowledge monsterName = header h timestamp.
Proof. intros H. unfold buildBestiaryContent. by rewrite H. Qed.

End BestiaryFacts.

Section Records.
Import Knowledge Bestiary.
Variable h : Host.t.
Variable timestamp : string.
Implicit Types (w : World) (ps : list Page) (js : list JournalEntry).

Lemma find_None_filter {A} (P : A → bool) (l : list A) :
  find P l = None → List.filter P l = [].
Proof.
  induction l as [|x l IH]; simpl; [done|]. destruct (P x); [done|]. exact IH.
Qed.

Lemma find_None_app {A} (P : A → bool) (l l' : list A) :
  find P l = None → find P (l ++ l') = find P l'.
Proof.
  induction l as [|x l IH]; simpl; [done|]. destruct (P x); [done|]. exact IH.
Qed.

Lemma find_store_journal (journalName : string) (b b' : JournalEntry) js :
  find (fun j => String.eqb (journal_name j) journalName) js = Some b →
  journal_name b' = journalName →
  find (fun j => String.eqb (journal_name j) journalName)
       (store_journal journalName b' js) = Some b'.
Proof.
  intros Hf Hn. induction js as [|j js IH]; simpl in *; [done|].
  destruct (String.eqb (journal_name j) journalName) eqn:E; simpl.
  - by rewrite Hn, String.eqb_refl.
  - rewrite E. by apply IH.
Qed.

(** Updating the first page of a name changes the first record of that
    name and no record of another name. *)
Lemma update_page_records (monsterName : string) (f : string → string) ps :
  map content
    (List.filter (fun p => String.eqb (page_name p) monsterName)
       (update_page monsterName f ps))
  = match map content
            (List.filter (fun p => String.eqb (page_name p) monsterName) ps) with
    | [] => []
    | old :: rest => f old :: rest
    end.
Proof.
  induction ps as [|p ps IH]; simpl; [done|].
  destruct (String.eqb (page_name p) monsterName) eqn:E; simpl; rewrite E; simpl; done.
Qed.

Lemma update_page_others (monsterName other : string) (f : string → string) ps :
  other ≠ monsterName →
  List.filter (fun p => String.eqb (page_name p) other) (update_page monsterName f ps)
  = List.filter (fun p => String.eqb (page_name p) other) ps.
Proof.
  intros Hne. induction ps as [|p ps IH]; simpl; [done|].
  destruct (String.eqb (page_name p) monsterName) eqn:E; simpl.
  - apply String.eqb_eq in E. rewrite E.
    destruct (String.eqb_spec monsterName other); [congruence | done].
  - by rewrite IH.
Qed.

(** The records of a journal entry after the commit of a page to it. *)
Lemma commit_page_records (monsterName content : string) (b : JournalEntry) :
  map Bestiary.content
    (List.filter (fun p => String.eqb (page_name p) monsterName)
       (pages (fst (commit_page h monsterName content b))))
  = match map Bestiary.content
            (List.filter (fun p => String.eqb (page_name p) monsterName) (pages b)) with
    | [] => [content]
    | _ :: rest => content :: rest
    end.
Proof.
  unfold commit_page.
  destruct (find _ (pages b)) as [p|] eqn:Hf; simpl.
  - rewrite update_page_records. unfold mergeBestiaryContent.
    destruct (map _ _) as [|old rest] eqn:Hm; [|done].
    apply find_some in Hf as [Hin Hp].
    apply (in_map Bestiary.content) in Hin as Hin'.
    assert (In (Bestiary.content p) []) as []. rewrite <- Hm. apply in_map.
    apply filter_In. by split.
  - rewrite List.filter_app, map_app. simpl. rewrite String.eqb_refl. simpl.
    by rewrite (find_None_filter _ _ Hf).
Qed.

Lemma commit_page_others (monsterName other content : string) (b : JournalEntry) :
  other ≠ monsterName →
  List.filter (fun p => String.eqb (page_name p) other)
    (pages (fst (commit_page h monsterName content b)))
  = List.filter (fun p => String.eqb (page_name p) other) (pages b).
Proof.
  intros Hne. unfold commit_page.
  destruct (find _ (pages b)) as [p|]; simpl.
  - by apply update_page_others.
  - rewrite List.filter_app. simpl.
    destruct (String.eqb_spec monsterName other); [congruence|]. by rewrite app_nil_r.
Qed.

Lemma commit_page_name (monsterName content : string) (b : JournalEntry) :
  journal_name (fst (commit_page h monsterName content b)) = journal_name b.
Proof. unfold commit_page. by destruct (find _ (pages b)). Qed.

(** The bestiary after a commit for a known monster: the monster's first
    record is the page built from the bundle, whatever it was before, and
    a first record is created when there was none; the records of other
    monsters stay. *)
Lemma addToBestiary_records (monsterId : string) (knowledge : Knowledge.t) w
    (m : Monster.Actor) :
  actors_get w monsterId = Some m →
  let journalName := Host.localize h "MKC.Journal.BestiaryName" in
  let content := buildBestiaryContent h timestamp knowledge (Monster.name m) in
  let w' := addToBestiary h timestamp monsterId knowledge w in
  records journalName (Monster.name m) w'
  = match records journalName (Monster.name m) w with
    | [] => [content]
    | _ :: rest => content :: rest
    end
  ∧ ∀ other, other ≠ Monster.name m →
      records journalName other w' = records journalName other w.
Proof.
  intros Hm journalName content w'. subst w'. unfold addToBestiary. rewrite Hm.
  fold journalName. fold content. unfold records.
  destruct (journal_find journalName w) as [b|] eqn:Hj.
  - destruct (commit_page h (Monster.name m) content b) as [b' n] eqn:Hc.
    assert (b' = fst (commit_page h (Monster.name m) content b)) as Hb
      by (by rewrite Hc).
    unfold journal_find in *. simpl.
    erewrite find_store_journal;
      [| exact Hj
       | rewrite Hb, commit_page_name;
         apply find_some in Hj as [_ Hn]; by apply String.eqb_eq in Hn].
    rewrite Hb. split.
    + apply commit_page_records.
    + intros other Hne. by rewrite commit_page_others.
  - unfold journal_find in *. simpl.
    rewrite (find_None_app _ _ _ Hj). simpl. rewrite String.eqb_refl. simpl.
    rewrite String.eqb_refl. split; [done|].
    intros other Hne. destruct (String.eqb_spec (Monster.name m) other); [congruence | done].
Qed.

(** A commit for an unknown monster identifier shows an error and
    changes nothing else. *)
Lemma addToBestiary_unknown (monsterId : string) (knowledge : Knowledge.t) w :
  actors_get w monsterId = None →
  addToBestiary h timestamp monsterId knowledge w
  = notify (Error (Host.localize h "MKC.Errors.MonsterNotFound")) w.
Proof. intros Hm. unfold addToBestiary. by rewrite Hm. Qed.

End Records.



(** The page of the sample bundle, and the world after committing it to a
    world without a bestiary journal. *)
Example commit_to_fresh_world :
  Bestiary.buildBestiaryContent Sample.host Sample.today Sample.bundle "Goblin"
  = "<p><em>MKC.Journal.LastUpdated 11/1/2026</em></p><hr><h3>MKC.Tier.I</h3><p><strong>MKC.InfoType.AC:</strong> 15</p>"
  ∧ Bestiary.journal
      (Bestiary.addToBestiary Sample.host Sample.today "a1" Sample.bundle Sample.fresh_world)
    = [{| Bestiary.journal_name := "MKC.Journal.BestiaryName";
          Bestiary.pages :=
            [{| Bestiary.page_name := "Goblin"; Bestiary.page_type := "text";
                Bestiary.content :=
                  Bestiary.buildBestiaryContent Sample.host Sample.today Sample.bundle
                    "Goblin" |}] |}].
Proof. vm_compute. split; reflexivity. Qed.

(** C10.  A commit of a bundle without tiers for a monster that has a
    record replaces the record's content by the timestamp line alone:
    what was recorded before is gone. *)
Theorem C10_empty_bundle_overwrites (h : Host.t) (timestamp monsterId : string)
    (knowledge : Knowledge.t) (w : Bestiary.World) (m : Monster.Actor)
    (old : string) (rest : list string) :
  Bestiary.actors_get w monsterId = Some m →
  Knowledge.tiers knowledge = [] →
  let journalName := Host.localize h "MKC.Journal.BestiaryName" in
  Bestiary.records journalName (Monster.name m) w = old :: rest →
  Bestiary.records journalName (Monster.name m)
    (Bestiary.addToBestiary h timestamp monsterId knowledge w)
  = Bestiary.header h timestamp :: rest.
Proof.
  intros Hm Ht journalName Hold.
  destruct (addToBestiary_records h timestamp monsterId knowledge w m Hm) as [Hr _].
  fold journalName in Hr. rewrite Hr, Hold. f_equal. by apply build_no_tiers.
Qed.

Lemma C10_empty_bundle_overwrites_witness :
  Bestiary.records "MKC.Journal.BestiaryName" "Goblin" Sample.known_world
  = ["<h3>MKC.Tier.I</h3><h3>MKC.Tier.II</h3>"]
  ∧ Bestiary.records "MKC.Journal.BestiaryName" "Goblin"
      (Bestiary.addToBestiary Sample.host Sample.today "a1" Sample.empty_bundle
         Sample.known_world)
    = ["<p><em>MKC.Journal.LastUpdated 11/1/2026</em></p><hr>"].
Proof.
  split; [reflexivity|].
  exact (C10_empty_bundle_overwrites Sample.host Sample.today "a1" Sample.empty_bundle
           Sample.known_world Sample.goblin _ _ eq_refl eq_refl eq_refl).
Defined.

(** ** The preconditions of a check *)

Section Preconditions.
Import Bestiary Main.
Variable h : Host.t.
Implicit Types (user : User) (w : World).

Lemma click_no_target user w :
  targets user = [] →
  onMonsterKnowledgeClick h user w
  = warn_and_return (Host.localize h "MKC.Warnings.NoTokenTargeted").
Proof. intros H. unfold onMonsterKnowledgeClick. by rewrite H. Qed.

Lemma click_multiple_targets user w :
  (1 < length (targets user))%nat →
  onMonsterKnowledgeClick h user w
  = warn_and_return (Host.localize h "MKC.Warnings.MultipleTokensTargeted").
Proof.
  intros H. unfold onMonsterKnowledgeClick.
  destruct (targets user) as [|t1 [|t2 r]]; simpl in H; [lia | lia | done].
Qed.

Lemma click_no_actor user w token :
  targets user = [token] → actor token = None →
  onMonsterKnowledgeClick h user w
  = warn_and_return (Host.localize h "MKC.Warnings.NoActorOnToken").
Proof. intros H1 H2. unfold onMonsterKnowledgeClick. by rewrite H1, H2. Qed.

Lemma click_not_npc user w token a :
  targets user = [token] → actor token = Some a → Monster.type a ≠ "npc" →
  onMonsterKnowledgeClick h user w
  = warn_and_return (Host.localize h "MKC.Warnings.NotAnNPC").
Proof.
  intros H1 H2 H3. unfold onMonsterKnowledgeClick. rewrite H1, H2.
  by destruct (String.eqb_spec (Monster.type a) "npc").
Qed.

Lemma click_no_character user w token a :
  targets user = [token] → actor token = Some a → Monster.type a = "npc" →
  getAvailableCharacters user w = [] →
  onMonsterKnowledgeClick h user w
  = warn_and_return (Host.localize h "MKC.Warnings.NoPlayerCharacter").
Proof.
  intros H1 H2 H3 H4. unfold onMonsterKnowledgeClick. rewrite H1, H2, H3, H4. done.
Qed.

(** With every precondition met the dialog is rendered on the targeted
    monster and nothing is shown. *)
Lemma click_renders user w token a first others :
  targets user = [token] → actor token = Some a → Monster.type a = "npc" →
  getAvailableCharacters user w = first :: others →
  onMonsterKnowledgeClick h user w
  = {| shown := [];
       dialog :=
         Some {| monster := a;
                 availableCharacters := first :: others;
                 defaultCharacterId := Monster.id (default first (character user)) |} |}.
Proof.
  intros H1 H2 H3 H4. unfold onMonsterKnowledgeClick. rewrite H1, H2, H3, H4. done.
Qed.

(** Any failed precondition ends the click with one warning and no
    dialog. *)
Lemma click_warns user w :
  targets user = []
  ∨ (1 < length (targets user))%nat
  ∨ (∃ token, targets user = [token] ∧ actor token = None)
  ∨ (∃ token a, targets user = [token] ∧ actor token = Some a ∧ Monster.type a ≠ "npc")
  ∨ getAvailableCharacters user w = [] →
  ∃ key,
    key ∈ ["MKC.Warnings.NoTokenTargeted"; "MKC.Warnings.MultipleTokensTargeted";
           "MKC.Warnings.NoActorOnToken"; "MKC.Warnings.NotAnNPC";
           "MKC.Warnings.NoPlayerCharacter"]
    ∧ onMonsterKnowledgeClick h user w = warn_and_return (Host.localize h key).
Proof.
  intros [H|[H|[(token & H1 & H2)|[(token & a & H1 & H2 & H3)|H]]]].
  - eexists. split; [|by apply click_no_target]. set_solver.
  - eexists. split; [|by apply click_multiple_targets]. set_solver.
  - eexists. split; [|by eapply click_no_actor]. set_solver.
  - eexists. split; [|by eapply click_not_npc]. set_solver.
  - destruct (targets user) as [|token [|t2 r]] eqn:Ht.
    + eexists. split; [|by apply click_no_target]. set_solver.
    + destruct (actor token) as [a|] eqn:Ha.
      * destruct (decide (Monster.type a = "npc")) as [Hn|Hn].
        -- eexists. split; [|by eapply click_no_character]. set_solver.
        -- eexists. split; [|by eapply click_not_npc]. set_solver.
      * eexists. split; [|by eapply click_no_actor]. set_solver.
    + eexists. split; [|apply click_multiple_targets; rewrite Ht; simpl; lia].
      set_solver.
Qed.

End Preconditions.

(** C9.  When a precondition of the check fails (no target, several
    targets, a target without actor, a target that is not an NPC, no
    available character) the click shows one warning, renders no dialog,
    and the interaction posts no result: no tier is resolved and nothing
    is extracted.  A bestiary commit for an unknown monster identifier
    shows the error and leaves actors and journal as they were. *)
Theorem C9_failures_abort (h : Host.t) :
  (∀ (user : Main.User) (w : Bestiary.World),
     Main.targets user = []
     ∨ (1 < length (Main.targets user))%nat
     ∨ (∃ token, Main.targets user = [token] ∧ Main.actor token = None)
     ∨ (∃ token a, Main.targets user = [token] ∧ Main.actor token = Some a
                   ∧ Monster.type a ≠ "npc")
     ∨ Main.getAvailableCharacters user w = [] →
     ∃ key,
       key ∈ ["MKC.Warnings.NoTokenTargeted"; "MKC.Warnings.MultipleTokensTargeted";
              "MKC.Warnings.NoActorOnToken"; "MKC.Warnings.NotAnNPC";
              "MKC.Warnings.NoPlayerCharacter"]
       ∧ Main.onMonsterKnowledgeClick h user w
         = {| Main.shown := [Bestiary.Warn (Host.localize h key)]; Main.dialog := None |}
       ∧ ∀ tierConfig rolled data,
           Main.knowledge_check h tierConfig rolled user w data
           = ([Bestiary.Warn (Host.localize h key)], None))
  ∧ (∀ (timestamp monsterId : string) (knowledge : Knowledge.t) (w : Bestiary.World),
       Bestiary.actors_get w monsterId = None →
       let w' := Bestiary.addToBestiary h timestamp monsterId knowledge w in
       Bestiary.notifications w'
       = Bestiary.notifications w
           ++ [Bestiary.Error (Host.localize h "MKC.Errors.MonsterNotFound")]
       ∧ Bestiary.journal w' = Bestiary.journal w
       ∧ Bestiary.actors w' = Bestiary.actors w).
Proof.
  split.
  - intros user w Hfail. destruct (click_warns h user w Hfail) as (key & Hkey & Hclick).
    exists key. split; [done|]. split; [done|].
    intros tierConfig rolled data. unfold Main.knowledge_check. by rewrite Hclick.
  - intros timestamp monsterId knowledge w Hm w'. subst w'.
    by rewrite addToBestiary_unknown.
Qed.

Lemma C9_failures_abort_witness :
  (∃ key,
     Main.onMonsterKnowledgeClick Sample.host Sample.confused_user Sample.known_world
     = {| Main.shown := [Bestiary.Warn key]; Main.dialog := None |}
     ∧ Main.knowledge_check Sample.host Settings.default_config 17
         Sample.confused_user Sample.known_world Sample.arcana_roll
       = ([Bestiary.Warn key], None))
  ∧ Bestiary.journal
      (Bestiary.addToBestiary Sample.host Sample.today "zz" Sample.bundle Sample.known_world)
    = Bestiary.journal Sample.known_world.
Proof.
  split.
  - destruct (proj1 (C9_failures_abort Sample.host)
                Sample.confused_user Sample.known_world) as (key & _ & Hclick & Hcheck).
    + right. right. right. left.
      exists {| Main.actor := Some Sample.hero |}, Sample.hero.
      split; [reflexivity | split; [reflexivity | discriminate]].
    + exists key. split; [exact Hclick | apply Hcheck].
  - exact (proj1 (proj2
      (proj2 (C9_failures_abort Sample.host)
         Sample.today "zz" Sample.bundle Sample.known_world eq_refl))).
Defined.

(** With the preconditions met, the same interaction renders the dialog
    and posts the result of the check: a roll of 17 against the default
    difficulties reveals the first two tiers of the goblin. *)
Example check_on_goblin :
  (λ r, (fst r, (λ m, Knowledge.id <$> Dialog.msg_tiers m) <$> snd r))
    (Main.knowledge_check Sample.host Settings.default_config 17
       Sample.player_user Sample.known_world Sample.arcana_roll)
  = ([], Some ["tier1"; "tier2"]).
Proof. vm_compute. reflexivity. Qed.

(* ================================================================== *)
(** * Further properties of the code *)
(* ================================================================== *)

(** ** The resolver's output as a whole *)

Section ResolverShape.
Import Dialog.
Implicit Types (t : option Z) (dcs : gmap string Z).

(** The output has one entry for each tier name with a truthy threshold,
    in the order tier 1 to tier 5, whatever the total; the entry holds the
    outcome of the comparison. *)
Theorem resolver_entries t dcs :
  _determineUnlockedTiers t dcs
  = map (fun tier => (tier, Js.ge t (default 0 (dcs !! tier))))
        (List.filter (fun tier => Js.truthy_onum (dcs !! tier)) tierOrder).
Proof.
  unfold _determineUnlockedTiers, tierOrder, unlock_step. simpl.
  destruct (Js.truthy_onum (dcs !! "tier1"));
    destruct (Js.truthy_onum (dcs !! "tier2"));
    destruct (Js.truthy_onum (dcs !! "tier3"));
    destruct (Js.truthy_onum (dcs !! "tier4"));
    destruct (Js.truthy_onum (dcs !! "tier5")); reflexivity.
Qed.

(** A higher total keeps every tier a lower total unlocks. *)
Theorem resolver_total_monotone (total total' : Z) dcs (tier : string) :
  total ≤ total' →
  Js.obj_get tier (_determineUnlockedTiers (Some total) dcs) = Some true →
  Js.obj_get tier (_determineUnlockedTiers (Some total') dcs) = Some true.
Proof.
  intros Hle. rewrite !resolver_lookup.
  destruct (dcs !! tier) as [d|]; [|done].
  destruct (is_tier tier && Js.truthy_num d); [|done]. simpl.
  intros [= H]. f_equal. apply Z.leb_le in H. apply Z.leb_le. lia.
Qed.

Lemma resolver_total_monotone_witness :
  Js.obj_get "tier2" (_determineUnlockedTiers (Some 17) Sample.default_dcs) = Some true.
Proof.
  apply (resolver_total_monotone 15 17 Sample.default_dcs "tier2"); [lia|].
  vm_compute. reflexivity.
Defined.


(** The outputs for two totals have the same keys, and with the higher
    total an entry is true wherever it is true with the lower one. *)
Lemma resolver_totals_related (total total' : Z) dcs :
  total ≤ total' →
  Forall2 (fun e e' : string * bool =>
             fst e = fst e' ∧ (snd e = true → snd e' = true))
    (_determineUnlockedTiers (Some total) dcs)
    (_determineUnlockedTiers (Some total') dcs).
Proof.
  intros Hle.
  assert (∀ d, (d <=? total) = true → (d <=? total') = true) as Hmono.
  { intros d. rewrite !Z.leb_le. lia. }
  unfold _determineUnlockedTiers, tierOrder, unlock_step. simpl.
  destruct (Js.truthy_onum (dcs !! "tier1"));
    destruct (Js.truthy_onum (dcs !! "tier2"));
    destruct (Js.truthy_onum (dcs !! "tier3"));
    destruct (Js.truthy_onum (dcs !! "tier4"));
    destruct (Js.truthy_onum (dcs !! "tier5")); simpl;
    repeat constructor; simpl; apply Hmono.
Qed.

End ResolverShape.

(** ** The bundle as a whole *)

Section GatherShape.
Import Knowledge Dialog.
Variable h : Host.t.
Variable monster : Monster.Actor.
Implicit Types (tierConfig : Settings.AllTierConfig) (k : Knowledge.t)
  (e : string * bool) (u : Js.obj bool).

(** What one entry contributes: nothing when it is locked, has no
    configuration or extracts to nothing; else its one tier. *)
Lemma gather_step_ids tierConfig e :
  map id (tiers (gather_step h monster tierConfig {| tiers := []; hasAny := false |} e))
  = if snd e
       && match Settings.tier_get tierConfig (fst e) with
          | Some c =>
              Js.truthy_len
                (flat_map
                   (fun infoType =>
                      items_of (Extract._getInfoByType h monster infoType))
                   (Settings.info c))
          | None => false
          end
    then [fst e] else [].
Proof.
  destruct e as [tierId [|]]; simpl; [|done].
  destruct (Settings.tier_get tierConfig tierId) as [c|]; [|done].
  destruct (Settings.info c) as [|x l] eqn:Hi; [done|]. cbn [tiers].
  rewrite <- Hi. unfold set_info at 1. cbn [info]. rewrite extract_fold. simpl.
  by destruct (flat_map _ _).
Qed.

(** The tiers of the bundle are the unlocked entries that have a
    configuration and extract to at least one item, in the order of the
    entries: no other tier is in the bundle and none of these is left
    out. *)
Theorem gather_tier_ids tierConfig u :
  map id (tiers (_gatherKnowledge h monster u tierConfig))
  = map fst
      (List.filter
         (fun e : string * bool =>
            snd e
            && match Settings.tier_get tierConfig (fst e) with
               | Some c =>
                   Js.truthy_len
                     (flat_map
                        (fun infoType =>
                           items_of (Extract._getInfoByType h monster infoType))
                        (Settings.info c))
               | None => false
               end)
         (Js.entries u)).
Proof.
  rewrite gather_tiers_flat. unfold Js.entries.
  induction u as [|e u IH]; simpl; [done|].
  rewrite map_app, IH, gather_step_ids.
  by destruct (snd e && _).
Qed.

(** The flag is true exactly when some unlocked entry has a non-empty
    configured list of kinds. *)
Theorem gather_hasAny_iff tierConfig u :
  hasAny (_gatherKnowledge h monster u tierConfig) = true
  ↔ ∃ tierId c,
      (tierId, true) ∈ Js.entries u
      ∧ Settings.tier_get tierConfig tierId = Some c
      ∧ Settings.info c ≠ [].
Proof.
  unfold _gatherKnowledge. rewrite gather_fold_hasAny. simpl.
  rewrite existsb_exists. split.
  - intros ([tierId b] & Hin & Hb). simpl in Hb.
    apply andb_true_iff in Hb as [-> Hc].
    destruct (Settings.tier_get tierConfig tierId) as [c|] eqn:Hg; [|done].
    exists tierId, c. split; [by apply list_elem_of_In|]. split; [done|].
    by destruct (Settings.info c).
  - intros (tierId & c & Hin & Hg & Hi). exists (tierId, true).
    split; [by apply list_elem_of_In|]. simpl. rewrite Hg.
    by destruct (Settings.info c).
Qed.


(** Unlocking more entries only adds tiers to the bundle. *)
Lemma gather_sublist tierConfig u u' :
  Forall2 (fun e e' : string * bool =>
             fst e = fst e' ∧ (snd e = true → snd e' = true)) u u' →
  tiers (_gatherKnowledge h monster u tierConfig)
    `sublist_of` tiers (_gatherKnowledge h monster u' tierConfig).
Proof.
  rewrite !gather_tiers_flat. induction 1 as [|[i b] [i' b'] u u' [Hi Hb] _ IH]; simpl.
  - done.
  - simpl in Hi, Hb. subst i'. apply sublist_app; [|done].
    destruct b; [by rewrite Hb|]. simpl. apply sublist_nil_l.
Qed.

(** A better roll reveals at least the tiers a worse roll reveals, in the
    same order. *)
Theorem bundle_total_monotone tierConfig (dcs : gmap string Z) (total total' : Z) :
  total ≤ total' →
  tiers (_gatherKnowledge h monster
           (_determineUnlockedTiers (Some total) dcs) tierConfig)
    `sublist_of`
  tiers (_gatherKnowledge h monster
           (_determineUnlockedTiers (Some total') dcs) tierConfig).
Proof.
  intros Hle. by apply gather_sublist, resolver_totals_related.
Qed.

End GatherShape.

Lemma bundle_total_monotone_witness :
  Knowledge.tiers
    (Dialog._gatherKnowledge Sample.host Sample.goblin
       (Dialog._determineUnlockedTiers (Some 13) Sample.default_dcs)
       Settings.default_config)
    `sublist_of`
  Knowledge.tiers
    (Dialog._gatherKnowledge Sample.host Sample.goblin
       (Dialog._determineUnlockedTiers (Some 19) Sample.default_dcs)
       Settings.default_config).
Proof.
  apply (bundle_total_monotone Sample.host Sample.goblin Settings.default_config
           Sample.default_dcs 13 19). lia.
Defined.

(** ** What the extractors always give *)

Section ExtractShape.
Import Knowledge Extract.
Variable h : Host.t.
Variable monster : Monster.Actor.

(** Every kind of [INFO_TYPES] except the two ability extremes gives
    exactly one item for every monster, missing data or not, apart from
    the damage traits, which give one to three; an ability extreme gives
    at most one. *)
Theorem known_kind_items :
  Forall
    (fun infoType =>
       length (items_of (_getInfoByType h monster infoType)) = 1%nat)
    ["conditionImmunities"; "ac"; "hp"; "speed"; "senses"; "languages"; "cr";
     "creatureType"; "allStats"; "allSaves"; "legendaryActions";
     "legendaryResistances"]
  ∧ (1 ≤ length (items_of (_getInfoByType h monster "resistances")) ≤ 3)%nat
  ∧ (length (items_of (_getInfoByType h monster "highestStat")) ≤ 1)%nat
  ∧ (length (items_of (_getInfoByType h monster "lowestStat")) ≤ 1)%nat.
Proof.
  split; [repeat constructor|]. split; [|split].
  - change (_getInfoByType h monster "resistances") with (_getResistancesInfo h monster).
    unfold _getResistancesInfo, push_category.
    destruct (_formatDamageTraits h (Monster.dv _));
      destruct (_formatDamageTraits h (Monster.dr _));
      destruct (_formatDamageTraits h (Monster.di _)); simpl; lia.
  - change (_getInfoByType h monster "highestStat") with (_getHighestStatInfo h monster).
    unfold _getHighestStatInfo. destruct (_getHighestStat h monster); simpl; lia.
  - change (_getInfoByType h monster "lowestStat") with (_getLowestStatInfo h monster).
    unfold _getLowestStatInfo. destruct (_getLowestStat h monster); simpl; lia.
Qed.

(** [a || b] is not empty when [b] is not. *)
Lemma or_str_nonempty (a : option string) (b : string) :
  b ≠ EmptyString → Js.or_str a b ≠ EmptyString.
Proof.
  intros Hb. unfold Js.or_str, Js.truthy_str. destruct a as [s|]; [|done].
  by destruct (String.eqb_spec s EmptyString).
Qed.

Lemma app_nonempty (s1 s2 : string) : s1 ≠ EmptyString → s1 +:+ s2 ≠ EmptyString.
Proof. by destruct s1. Qed.

(** The speed, the senses, the languages and the creature type are never
    shown as an empty text: without data they are the dash. *)
Theorem formatted_never_empty :
  _formatSpeed monster ≠ EmptyString
  ∧ _formatSenses monster ≠ EmptyString
  ∧ _formatLanguages h monster ≠ EmptyString
  ∧ _formatCreatureType h monster ≠ EmptyString.
Proof.
  repeat split.
  - unfold _formatSpeed. destruct (Monster.movement _); [|done].
    by apply or_str_nonempty.
  - unfold _formatSenses. destruct (Monster.senses _); [|done].
    by apply or_str_nonempty.
  - unfold _formatLanguages. destruct (Monster.languages _); [|done].
    by apply or_str_nonempty.
  - unfold _formatCreatureType.
    assert (∀ a b, Js.or_str a (Js.or_str b "—") ≠ EmptyString) as Hl
      by (intros; by repeat apply or_str_nonempty).
    destruct (_ ≫= Monster.subtype) as [st|]; [|apply Hl].
    destruct (Js.truthy_str st); [|apply Hl]. apply app_nonempty, Hl.
Qed.

(** On ability keys that are not empty, an ability extreme is missing
    only for a monster without abilities. *)
Theorem extremes_missing_iff :
  Forall (fun e : string * Monster.Ability => fst e ≠ EmptyString)
    (Monster.abilities (Monster.system monster)) →
  (_getHighestStat h monster = None ↔ Monster.abilities (Monster.system monster) = [])
  ∧ (_getLowestStat h monster = None ↔ Monster.abilities (Monster.system monster) = []).
Proof.
  intros Hids.
  assert (∀ pre id ab post,
            Monster.abilities (Monster.system monster) = pre ++ (id, ab) :: post →
            Js.truthy_str id = true) as Hid.
  { intros pre id ab post Heq. rewrite Heq in Hids.
    apply Forall_app in Hids as [_ Hids]. apply Forall_cons in Hids as [Hids _].
    simpl in Hids. unfold Js.truthy_str.
    destruct (String.eqb_spec id EmptyString); done. }
  unfold _getHighestStat, _getLowestStat, Js.entries.
  destruct (Monster.abilities (Monster.system monster)) as [|e l] eqn:Hl.
  - simpl. done.
  - destruct (highest_scan h (e :: l)) as (pre & id & ab & post & Heq & Hr & _); [done|].
    destruct (lowest_scan h (e :: l)) as (pre' & id' & ab' & post' & Heq' & Hr' & _);
      [done|].
    rewrite Hr, Hr', !stat_result_of, (Hid _ _ _ _ Heq), (Hid _ _ _ _ Heq').
    done.
Qed.

End ExtractShape.

Lemma extremes_missing_iff_witness :
  Extract._getHighestStat Sample.host Sample.goblin ≠ None.
Proof.
  intros H.
  apply (proj1 (proj1 (extremes_missing_iff Sample.host Sample.goblin
                         ltac:(repeat constructor; discriminate)))) in H.
  discriminate H.
Defined.

(** ** When the flag and the tiers agree *)

Section FlagAgrees.
Import Knowledge Dialog.
Variable h : Host.t.
Variable monster : Monster.Actor.

Lemma length_1_nonempty {A} (l : list A) : length l = 1%nat → l ≠ [].
Proof. by destruct l. Qed.

(** For a monster with abilities, a kind of [INFO_TYPES] gives at least
    one item. *)
Lemma known_kind_nonempty (infoType : string) :
  Monster.abilities (Monster.system monster) ≠ [] →
  Forall (fun e : string * Monster.Ability => fst e ≠ EmptyString)
    (Monster.abilities (Monster.system monster)) →
  is_Some (Js.obj_get infoType Settings.INFO_TYPES) →
  items_of (Extract._getInfoByType h monster infoType) ≠ [].
Proof.
  intros Hne Hids [v Hv]. unfold Settings.INFO_TYPES in Hv. simpl in Hv.
  assert (∀ pre id ab post,
            Monster.abilities (Monster.system monster) = pre ++ (id, ab) :: post →
            Js.truthy_str id = true) as Hid.
  { intros pre id ab post Heq. rewrite Heq in Hids.
    apply Forall_app in Hids as [_ Hids]. apply Forall_cons in Hids as [Hids _].
    simpl in Hids. unfold Js.truthy_str.
    destruct (String.eqb_spec id EmptyString); done. }
  destruct (String.eqb_spec infoType "resistances") as [->|_].
  { change (Extract._getInfoByType h monster "resistances")
      with (Extract._getResistancesInfo h monster).
    unfold Extract._getResistancesInfo, Extract.push_category.
    destruct (Extract._formatDamageTraits h (Monster.dv _));
      destruct (Extract._formatDamageTraits h (Monster.dr _));
      destruct (Extract._formatDamageTraits h (Monster.di _)); done. }
  destruct (String.eqb_spec infoType "conditionImmunities") as [->|_];
    [by apply length_1_nonempty|].
  destruct (String.eqb_spec infoType "highestStat") as [->|_].
  { change (Extract._getInfoByType h monster "highestStat")
      with (Extract._getHighestStatInfo h monster).
    unfold Extract._getHighestStatInfo, Extract._getHighestStat, Js.entries.
    destruct (highest_scan h _ Hne) as (pre & id & ab & post & Heq & Hr & _).
    by rewrite Hr, stat_result_of, (Hid _ _ _ _ Heq). }
  destruct (String.eqb_spec infoType "lowestStat") as [->|_].
  { change (Extract._getInfoByType h monster "lowestStat")
      with (Extract._getLowestStatInfo h monster).
    unfold Extract._getLowestStatInfo, Extract._getLowestStat, Js.entries.
    destruct (lowest_scan h _ Hne) as (pre & id & ab & post & Heq & Hr & _).
    by rewrite Hr, stat_result_of, (Hid _ _ _ _ Heq). }
  repeat match type of Hv with
         | context [String.eqb infoType ?kind] =>
             destruct (String.eqb_spec infoType kind) as [->|_];
             [by apply length_1_nonempty|]
         end.
  done.
Qed.

(** When every configured kind is a kind of [INFO_TYPES] and the monster
    has abilities (with keys that are not empty), the flag of the bundle
    is true exactly when the bundle has a tier. *)
Theorem flag_iff_tiers (tierConfig : Settings.AllTierConfig) (u : Js.obj bool) :
  Monster.abilities (Monster.system monster) ≠ [] →
  Forall (fun e : string * Monster.Ability => fst e ≠ EmptyString)
    (Monster.abilities (Monster.system monster)) →
  (∀ tierId c,
     Settings.tier_get tierConfig tierId = Some c →
     Forall (fun infoType => is_Some (Js.obj_get infoType Settings.INFO_TYPES))
       (Settings.info c)) →
  hasAny (_gatherKnowledge h monster u tierConfig) = true
  ↔ tiers (_gatherKnowledge h monster u tierConfig) ≠ [].
Proof.
  intros Hne Hids Hknown. split; [|apply gather_tiers_hasAny].
  unfold _gatherKnowledge at 1. rewrite gather_fold_hasAny. simpl.
  intros ([tierId b] & Hin & Hb)%existsb_exists. simpl in Hb.
  apply andb_true_iff in Hb as [-> Hb].
  destruct (Settings.tier_get tierConfig tierId) as [c|] eqn:Hg; [|done].
  destruct (Settings.info c) as [|x l] eqn:Hc; [done|].
  specialize (Hknown tierId c Hg). rewrite Hc in Hknown.
  apply Forall_cons in Hknown as [Hx _].
  pose proof (known_kind_nonempty x Hne Hids Hx) as Hx'.
  rewrite gather_tiers_flat. intros Hnil.
  assert (tiers (gather_step h monster tierConfig
                   {| tiers := []; hasAny := false |} (tierId, true)) = []) as Hstep.
  { unfold Js.entries in Hin. revert Hnil Hin. generalize (tierId, true).
    induction u as [|e u IH]; simpl; [done|].
    intros e0 [He Hu]%app_eq_nil [->|Hin]; [done | by apply IH]. }
  apply (f_equal (map id)) in Hstep. rewrite gather_step_ids in Hstep.
  simpl in Hstep. rewrite Hg, Hc in Hstep. simpl in Hstep.
  by destruct (items_of (Extract._getInfoByType h monster x)).
Qed.

End FlagAgrees.

Lemma flag_iff_tiers_witness :
  Knowledge.tiers
    (Dialog._gatherKnowledge Sample.host Sample.goblin
       [("tier1", true); ("tier2", false)] Settings.default_config) ≠ [].
Proof.
  apply (flag_iff_tiers Sample.host Sample.goblin Settings.default_config
           [("tier1", true); ("tier2", false)]).
  - discriminate.
  - repeat constructor; discriminate.
  - intros tierId c Hg. unfold Settings.tier_get in Hg.
    repeat (destruct (String.eqb tierId _);
            [injection Hg as <-; repeat constructor; vm_compute; eauto|]).
    discriminate.
  - vm_compute. reflexivity.
Defined.

(** ** A whole check *)

Section Check.
Import Knowledge Dialog.
Variable h : Host.t.
Variable monster : Monster.Actor.
Implicit Types (tierConfig : Settings.AllTierConfig) (player : option Monster.Actor).

(** A check posts its message unless there is no selected character, or
    it is a roll with a skill the character does not have; an autopass
    needs no skill. *)
Theorem check_fails_iff player tierConfig (rolled : Z) (skillId : string)
    (advantage : bool) (dcModifier : Z) (autopass : string) :
  _performKnowledgeCheck h monster player tierConfig rolled skillId advantage
    dcModifier autopass = None
  ↔ player = None
    ∨ ∃ p, player = Some p
           ∧ Js.truthy_str autopass = false
           ∧ Js.obj_get skillId (Monster.skills (Monster.system p)) = None.
Proof.
  unfold _performKnowledgeCheck. destruct player as [p|]; simpl.
  - destruct (Js.truthy_str autopass); simpl.
    + split; [done|]. intros [?|(p' & _ & ? & _)]; done.
    + destruct (Js.obj_get skillId _) as [total|] eqn:Hs; simpl.
      * split; [done|]. intros [?|(p' & [= <-] & _ & ?)]; [done|congruence].
      * split; [|done]. intros _. right. by exists p.
  - split; [|done]. by left.
Qed.


(** The modifier shifts every threshold of the check by the same amount
    and neither adds nor removes a tier. *)
Theorem check_dcs_shift tierConfig (dcModifier : Z) :
  check_dcs tierConfig dcModifier
  = (fun d => d + dcModifier) <$> check_dcs tierConfig 0.
Proof.
  apply map_eq. intros tier. rewrite lookup_fmap, !check_dcs_lookup.
  destruct (configured tierConfig tier); [|done].
  destruct (Settings.tier_get tierConfig tier) as [c|]; [|done]. simpl.
  f_equal. lia.
Qed.

End Check.


(** ** The dialog's context *)

Section ContextFacts.
Import Context.

Lemma getTier_dc (store : Store.t) (key tier : string) (c : Settings.TierCfg) :
  Store.getTier store key tier = Some c → Store.getDc store key = Some (Settings.dc c).
Proof.
  unfold Store.getTier. destruct (Store.getDc store key) as [d|]; simpl; [|done].
  destruct (Store.getTierInfo store tier); simpl; [|done]. by intros [= <-].
Qed.

(** The difficulties the dialog shows are the thresholds of a check
    without modifier: both are read from the same settings, and the fifth
    tier is shown exactly when a check has it. *)
Theorem shown_dcs_are_check_dcs (store : Store.t) (tierConfig : Settings.AllTierConfig) :
  Store.getAllTierConfig store = Some tierConfig →
  shown_dcs store = Some (Dialog.check_dcs tierConfig 0).
Proof.
  unfold shown_dcs, Store.getAllTierConfig. intros H.
  destruct (Store.getTier store "dcTier1" "tier1") as [t1|] eqn:H1; [|done].
  destruct (Store.getTier store "dcTier2" "tier2") as [t2|] eqn:H2; [|done].
  destruct (Store.getTier store "dcTier3" "tier3") as [t3|] eqn:H3; [|done].
  destruct (Store.getTier store "dcTier4" "tier4") as [t4|] eqn:H4; [|done].
  destruct (Store.getTier store "dcTier5" "tier5") as [t5|] eqn:H5; [|done].
  simpl in H. injection H as <-.
  rewrite (getTier_dc _ _ _ _ H1), (getTier_dc _ _ _ _ H2),
    (getTier_dc _ _ _ _ H3), (getTier_dc _ _ _ _ H4). simpl.
  unfold Dialog.check_dcs. simpl. by rewrite !Z.add_0_r.
Qed.

End ContextFacts.

(** ** The kind lists in the settings *)

Section SplitJoin.
Import JsText.
Implicit Types (sep : ascii) (s : string) (l : list string).

Lemma split_cons sep s : ∃ x xs, split sep s = x :: xs.
Proof.
  destruct s as [|a r]; simpl; [eauto|]. destruct (Ascii.eqb a sep); eauto.
Qed.

(** No piece of a split contains the separator. *)
Lemma split_pieces_clean sep s :
  Forall (fun piece => contains sep piece = false) (split sep s).
Proof.
  induction s as [|a r IH]; simpl; [by repeat constructor|].
  destruct (Ascii.eqb a sep) eqn:E; [by constructor|].
  destruct (split_cons sep r) as (x & xs & Hx). rewrite Hx in *. simpl.
  apply Forall_cons in IH as [Hx' Hxs]. constructor; [|done]. simpl. by rewrite E.
Qed.

(** A text without the separator is its own single piece, and in front
    of a separator it is the first piece. *)
Lemma split_clean sep s : contains sep s = false → split sep s = [s].
Proof.
  induction s as [|a r IH]; simpl; [done|].
  destruct (Ascii.eqb a sep); [done|]. simpl. intros H. by rewrite (IH H).
Qed.

Lemma split_app sep s rest :
  contains sep s = false →
  split sep (s +:+ String sep rest) = s :: split sep rest.
Proof.
  induction s as [|a r IH]; intros H.
  - change (EmptyString +:+ String sep rest) with (String sep rest). simpl.
    by rewrite Ascii.eqb_refl.
  - change (String a r +:+ String sep rest) with (String a (r +:+ String sep rest)).
    simpl in *. destruct (Ascii.eqb a sep); [done|]. simpl in H. by rewrite (IH H).
Qed.

(** Splitting what was joined gives the pieces back, when there is at
    least one piece and no piece contains the separator. *)
Lemma split_join sep l :
  l ≠ [] →
  Forall (fun piece => contains sep piece = false) l →
  split sep (String.concat (String sep EmptyString) l) = l.
Proof.
  induction l as [|x l IH]; [done|]. intros _ Hall.
  apply Forall_cons in Hall as [Hx Hl]. destruct l as [|y l].
  - simpl. by apply split_clean.
  - change (String.concat (String sep EmptyString) (x :: y :: l))
      with (x +:+ String sep EmptyString
              +:+ String.concat (String sep EmptyString) (y :: l)).
    change (String sep EmptyString +:+ ?r) with (String sep r).
    rewrite split_app by done. by rewrite IH.
Qed.

(** A text that is not white space throughout is not empty. *)
Lemma not_blank_nonempty s : blank s = false → s ≠ EmptyString.
Proof. by destruct s. Qed.

End SplitJoin.

Section KindLists.
Import Store.
Implicit Types (store : Store.t) (tier : string) (kinds : list string).

(** A kind as the menu writes it: not white space throughout, and without
    a comma. *)
Lemma parse_join kinds :
  Forall (fun kind => JsText.blank kind = false ∧ JsText.contains "," kind = false)
    kinds →
  (if Js.truthy_str (Js.join "," kinds) then parse_kinds (Js.join "," kinds) else [])
  = kinds.
Proof.
  intros Hall. destruct kinds as [|x l] eqn:Hk; [done|]. rewrite <- Hk in *.
  assert (kinds ≠ []) as Hne by (by rewrite Hk).
  assert (Js.truthy_str (Js.join "," kinds) = true) as ->.
  { rewrite Hk in *. apply Forall_cons in Hall as [[Hx _] _].
    apply not_blank_nonempty in Hx. unfold Js.truthy_str, Js.join.
    destruct x as [|a r]; [done|]. by destruct l. }
  unfold parse_kinds, Js.join.
  rewrite (split_join "," kinds Hne)
    by (eapply Forall_impl; [exact Hall|]; by intros ? [_ ?]).
  clear Hk Hne. induction Hall as [|k ks [Hb _] _ IH]; simpl; [done|].
  by rewrite Hb, IH.
Qed.

(** The kind list of a tier is read from the text stored under the
    tier's key. *)
Lemma getTierInfo_stored store tier (setting : string) :
  Dialog.is_tier tier = true →
  texts store !! info_key tier = Some setting →
  getTierInfo store tier
  = Some (if Js.truthy_str setting then parse_kinds setting else []).
Proof.
  intros Ht Hs. unfold getTierInfo, getSetting. unfold Dialog.is_tier in Ht.
  simpl in Ht.
  repeat match type of Ht with
         | context [String.eqb tier ?t] =>
             destruct (String.eqb_spec tier t) as [->|_];
             [vm_compute in Hs; vm_compute; by rewrite Hs|]
         end.
  done.
Qed.

End KindLists.

Section KindListTheorems.
Import Store.
Implicit Types (store : Store.t) (tier : string) (kinds : list string).

(** Writing a kind list joined by commas under a tier's key and reading
    the tier back gives the same list, when no kind is white space
    throughout or contains a comma; the empty list is read back from the
    empty text. *)
Theorem kinds_round_trip store tier kinds :
  Dialog.is_tier tier = true →
  Forall (fun kind => JsText.blank kind = false ∧ JsText.contains "," kind = false)
    kinds →
  getTierInfo (setSetting store (info_key tier) (Js.join "," kinds)) tier = Some kinds.
Proof.
  intros Ht Hall.
  rewrite (getTierInfo_stored _ tier (Js.join "," kinds) Ht)
    by (simpl; apply lookup_insert_eq).
  by rewrite parse_join.
Qed.

(** Whatever text is stored, a kind list that is read has no entry that
    is white space throughout and no entry with a comma.  Entries are not
    trimmed: one with a space around it is kept as it is. *)
Theorem kinds_read_clean store tier kinds :
  getTierInfo store tier = Some kinds →
  Forall (fun kind => JsText.blank kind = false ∧ JsText.contains "," kind = false)
    kinds.
Proof.
  unfold getTierInfo. destruct (getSetting store (info_key tier)) as [[n|setting]|];
    [by destruct (Js.truthy_num n); [|intros [= <-]] | | done].
  intros [= <-]. destruct (Js.truthy_str setting); [|done].
  unfold parse_kinds. apply List.Forall_forall. intros kind [Hin Hb]%filter_In.
  split; [by destruct (JsText.blank kind)|].
  pose proof (split_pieces_clean "," setting) as Hclean.
  rewrite List.Forall_forall in Hclean. by apply Hclean.
Qed.

(** Every tier name has a registered difficulty and a registered kind
    list, so the configuration can always be read. *)
Lemma getAllTierConfig_total store : is_Some (getAllTierConfig store).
Proof.
  unfold getAllTierConfig, getTier, getDc, getTierInfo, getSetting. simpl.
  repeat match goal with
         | |- context [default ?d (texts store !! ?k)] =>
             generalize (default d (texts store !! k)); intros ?
         end.
  eauto.
Qed.

(** Saving the tier menu leaves the difficulties as they are and makes
    the kind list of every tier the kinds checked for it, in the order of
    [INFO_TYPES]. *)
Theorem menu_saved_is_read (data : string → bool) store
    (tierConfig : Settings.AllTierConfig) :
  getAllTierConfig store = Some tierConfig →
  getAllTierConfig (submit data store)
  = Some
      {| Settings.tier1 :=
           {| Settings.dc := Settings.dc (Settings.tier1 tierConfig);
              Settings.info := checkedInfo data "tier1" |};
         Settings.tier2 :=
           {| Settings.dc := Settings.dc (Settings.tier2 tierConfig);
              Settings.info := checkedInfo data "tier2" |};
         Settings.tier3 :=
           {| Settings.dc := Settings.dc (Settings.tier3 tierConfig);
              Settings.info := checkedInfo data "tier3" |};
         Settings.tier4 :=
           {| Settings.dc := Settings.dc (Settings.tier4 tierConfig);
              Settings.info := checkedInfo data "tier4" |};
         Settings.tier5 :=
           {| Settings.dc := Settings.dc (Settings.tier5 tierConfig);
              Settings.info := checkedInfo data "tier5" |} |}.
Proof.
  intros Hcfg.
  assert (∀ tier, Forall (fun kind => JsText.blank kind = false
                                      ∧ JsText.contains "," kind = false)
                    (checkedInfo data tier)) as Hok.
  { intros tier. unfold checkedInfo. apply List.Forall_forall.
    intros kind [Hin _]%filter_In. revert kind Hin. apply List.Forall_forall.
    vm_compute. repeat constructor. }
  assert (∀ tier,
            Dialog.is_tier tier = true →
            texts (submit data store) !! info_key tier
            = Some (Js.join "," (checkedInfo data tier)) →
            getTierInfo (submit data store) tier = Some (checkedInfo data tier)) as Hread.
  { intros tier Ht Hs. rewrite (getTierInfo_stored _ tier _ Ht Hs).
    by rewrite parse_join. }
  assert (∀ key, getDc (submit data store) key = getDc store key) as Hdc.
  { intros key. unfold getDc, getSetting.
    change (numbers (submit data store)) with (numbers store).
    destruct (Js.obj_get key registered_numbers); [done|].
    by destruct (Js.obj_get key registered_texts). }
  unfold getAllTierConfig in *. unfold getTier in *. rewrite !Hdc.
  rewrite (Hread "tier1" eq_refl), (Hread "tier2" eq_refl),
    (Hread "tier3" eq_refl), (Hread "tier4" eq_refl), (Hread "tier5" eq_refl);
    try (unfold submit, submit_tier, setSetting; simpl;
         change (info_key "tier1") with "infoTier1";
         change (info_key "tier2") with "infoTier2";
         change (info_key "tier3") with "infoTier3";
         change (info_key "tier4") with "infoTier4";
         change (info_key "tier5") with "infoTier5";
         by simplify_map_eq).
Qed.

End KindListTheorems.

Lemma kinds_round_trip_witness :
  Store.getTierInfo
    (Store.setSetting Store.fresh (Store.info_key "tier5") (Js.join "," ["ac"; "hp"]))
    "tier5"
  = Some ["ac"; "hp"].
Proof.
  apply (kinds_round_trip Store.fresh "tier5" ["ac"; "hp"]); [reflexivity|].
  repeat constructor.
Defined.

Lemma kinds_read_clean_witness :
  Forall (fun kind => JsText.blank kind = false ∧ JsText.contains "," kind = false)
    ["ac"; " hp"].
Proof.
  apply (kinds_read_clean
           (Store.setSetting Store.fresh "infoTier2" "ac,, hp,  ") "tier2").
  vm_compute. reflexivity.
Defined.

Lemma menu_saved_is_read_witness :
  Settings.info
    <$> (Settings.tier5
           <$> Store.getAllTierConfig
                 (Store.submit (fun field => String.eqb field "tier5-cr") Store.fresh))
  = Some ["cr"].
Proof.
  rewrite (menu_saved_is_read (fun field => String.eqb field "tier5-cr") Store.fresh
             Settings.default_config); [|vm_compute; reflexivity].
  vm_compute. reflexivity.
Defined.

(** ** Commits to the bestiary, one after another *)

Section Commits.
Import Knowledge Bestiary.
Variable h : Host.t.
Implicit Types (w : World) (ps : list Page) (js : list JournalEntry)
  (b : JournalEntry) (n c : string).

Lemma addToBestiary_actors (timestamp monsterId : string) (k : Knowledge.t) w :
  actors (addToBestiary h timestamp monsterId k w) = actors w.
Proof.
  unfold addToBestiary. destruct (actors_get w monsterId); [|done].
  destruct (journal_find _ w); [|done]. by destruct (commit_page _ _ _ _).
Qed.

Lemma store_journal_twice (journalName : string) (b1 b2 : JournalEntry) js :
  journal_name b1 = journalName →
  store_journal journalName b2 (store_journal journalName b1 js)
  = store_journal journalName b2 js.
Proof.
  intros Hn. induction js as [|j js IH]; simpl; [done|].
  destruct (String.eqb (journal_name j) journalName) eqn:E; simpl.
  - by rewrite Hn, String.eqb_refl.
  - by rewrite E, IH.
Qed.

Lemma store_journal_new (journalName : string) (b1 b2 : JournalEntry) js :
  find (fun j => String.eqb (journal_name j) journalName) js = None →
  journal_name b1 = journalName →
  store_journal journalName b2 (js ++ [b1]) = js ++ [b2].
Proof.
  intros Hf Hn. induction js as [|j js IH]; simpl in *.
  - by rewrite Hn, String.eqb_refl.
  - destruct (String.eqb (journal_name j) journalName); [done|]. by rewrite IH.
Qed.

Lemma update_page_twice n (f g : string → string) ps :
  update_page n f (update_page n g ps) = update_page n (fun x => f (g x)) ps.
Proof.
  induction ps as [|p ps IH]; simpl; [done|].
  destruct (String.eqb (page_name p) n) eqn:E; simpl.
  - by rewrite E.
  - by rewrite E, IH.
Qed.

Lemma update_page_new n (f : string → string) ps (p : Page) :
  find (fun p => String.eqb (page_name p) n) ps = None →
  page_name p = n →
  update_page n f (ps ++ [p])
  = ps ++ [{| page_name := page_name p; page_type := page_type p;
              content := f (content p) |}].
Proof.
  intros Hf Hn. induction ps as [|q ps IH]; simpl in *.
  - by rewrite Hn, String.eqb_refl.
  - destruct (String.eqb (page_name q) n); [done|]. by rewrite IH.
Qed.

Lemma find_update_page n (f : string → string) ps :
  is_Some (find (fun p => String.eqb (page_name p) n) ps) →
  is_Some (find (fun p => String.eqb (page_name p) n) (update_page n f ps)).
Proof.
  induction ps as [|p ps IH]; simpl; [done|].
  destruct (String.eqb (page_name p) n) eqn:E; simpl; rewrite E; eauto.
Qed.

(** A page committed on top of a committed page is the page committed
    alone. *)
Lemma commit_page_twice n c1 c2 b :
  fst (commit_page h n c2 (fst (commit_page h n c1 b)))
  = fst (commit_page h n c2 b).
Proof.
  unfold commit_page at 2 3.
  destruct (find _ (pages b)) as [p|] eqn:Hf; simpl.
  - unfold commit_page. simpl.
    destruct (find_update_page n (fun existing => mergeBestiaryContent existing c1)
                (pages b)) as [p' ->]; [by rewrite Hf|].
    simpl. by rewrite update_page_twice.
  - unfold commit_page. simpl.
    rewrite (find_None_app _ _ _ Hf). simpl. rewrite String.eqb_refl. simpl.
    by rewrite update_page_new.
Qed.

(** Of two commits for the same monster the later one decides the
    journal: nothing of the earlier bundle is kept, and a second commit of
    the same bundle on the same day changes nothing. *)
Theorem later_commit_wins (timestamp1 timestamp2 monsterId : string)
    (k1 k2 : Knowledge.t) w (m : Monster.Actor) :
  actors_get w monsterId = Some m →
  journal (addToBestiary h timestamp2 monsterId k2
             (addToBestiary h timestamp1 monsterId k1 w))
  = journal (addToBestiary h timestamp2 monsterId k2 w).
Proof.
  intros Hm.
  assert (actors_get (addToBestiary h timestamp1 monsterId k1 w) monsterId = Some m)
    as Hm'.
  { unfold actors_get. by rewrite addToBestiary_actors. }
  unfold addToBestiary at 1. rewrite Hm'. unfold addToBestiary. rewrite Hm.
  set (J := Host.localize h "MKC.Journal.BestiaryName").
  set (c1 := buildBestiaryContent h timestamp1 k1 (Monster.name m)).
  set (c2 := buildBestiaryContent h timestamp2 k2 (Monster.name m)).
  unfold journal_find.
  destruct (find _ (journal w)) as [b|] eqn:Hj.
  - destruct (commit_page h (Monster.name m) c1 b) as [b1 n1] eqn:Hc1.
    assert (b1 = fst (commit_page h (Monster.name m) c1 b)) as Hb1 by (by rewrite Hc1).
    assert (journal_name b1 = J) as Hn1.
    { rewrite Hb1, commit_page_name. apply find_some in Hj as [_ Hn].
      by apply String.eqb_eq in Hn. }
    simpl. rewrite (find_store_journal J b b1 _ Hj Hn1).
    destruct (commit_page h (Monster.name m) c2 b1) as [b2 n2] eqn:Hc2.
    destruct (commit_page h (Monster.name m) c2 b) as [b2' n2'] eqn:Hc2'.
    simpl. rewrite store_journal_twice by done. f_equal.
    transitivity (fst (commit_page h (Monster.name m) c2 b1)); [by rewrite Hc2|].
    rewrite Hb1, commit_page_twice. by rewrite Hc2'.
  - simpl. rewrite (find_None_app _ _ _ Hj). simpl. rewrite String.eqb_refl.
    unfold commit_page. simpl. rewrite String.eqb_refl. simpl.
    by rewrite (store_journal_new J _ _ _ Hj).
Qed.

(** Every commit shows exactly one notification: the error when the
    monster is unknown, else an information. *)
Theorem commit_notifies_once (timestamp monsterId : string) (k : Knowledge.t) w :
  ∃ note : Notification,
    notifications (addToBestiary h timestamp monsterId k w)
    = notifications w ++ [note]
    ∧ match actors_get w monsterId with
      | None => note = Error (Host.localize h "MKC.Errors.MonsterNotFound")
      | Some m =>
          note ∈ [Info (Host.format h "MKC.Journal.Created" [("name", Monster.name m)]);
               Info (Host.format h "MKC.Journal.Updated" [("name", Monster.name m)]);
               Info (Host.format h "MKC.Journal.PageAdded" [("name", Monster.name m)])]
      end.
Proof.
  unfold addToBestiary. destruct (actors_get w monsterId) as [m|]; [|by eexists].
  destruct (journal_find _ w) as [b|].
  - unfold commit_page. destruct (find _ (pages b)); simpl; eexists; split; [done| |done|];
      set_solver.
  - simpl. eexists. split; [done|]. set_solver.
Qed.

End Commits.

Lemma later_commit_wins_witness :
  Bestiary.journal
    (Bestiary.addToBestiary Sample.host Sample.today "a1" Sample.empty_bundle
       (Bestiary.addToBestiary Sample.host "10/31/2026" "a1" Sample.bundle
          Sample.fresh_world))
  = Bestiary.journal
      (Bestiary.addToBestiary Sample.host Sample.today "a1" Sample.empty_bundle
         Sample.fresh_world).
Proof.
  exact (later_commit_wins Sample.host "10/31/2026" Sample.today "a1" Sample.bundle
           Sample.empty_bundle Sample.fresh_world Sample.goblin eq_refl).
Defined.

Section Journal.
Import Knowledge Bestiary.
Variable h : Host.t.
Implicit Types (w : World) (ps : list Page) (js : list JournalEntry).

Lemma update_page_names (monsterName : string) (f : string → string) ps :
  map page_name (update_page monsterName f ps) = map page_name ps.
Proof.
  induction ps as [|p ps IH]; simpl; [done|].
  destruct (String.eqb (page_name p) monsterName); simpl; [done | by rewrite IH].
Qed.

Lemma commit_page_names (monsterName content : string) (b : JournalEntry) :
  map page_name (pages b)
    `prefix_of` map page_name (pages (fst (commit_page h monsterName content b))).
Proof.
  unfold commit_page. destruct (find _ (pages b)); simpl.
  - by rewrite update_page_names.
  - rewrite map_app. by apply prefix_app_r.
Qed.

Lemma store_journal_Forall2 (journalName : string) (b b' : JournalEntry) js :
  find (fun j => String.eqb (journal_name j) journalName) js = Some b →
  Forall2 (fun j j' => j' = j ∨ (j = b ∧ j' = b')) js (store_journal journalName b' js).
Proof.
  induction js as [|j js IH]; simpl; [done|].
  destruct (String.eqb (journal_name j) journalName).
  - intros [= ->]. constructor; [by right|]. apply Forall2_same_length_lookup.
    split; [done|]. intros i x y Hx Hy. left. congruence.
  - intros Hf. constructor; [by left | by apply IH].
Qed.

(** A commit removes, renames or reorders no journal entry and no page:
    the journal entries stay in place under their names, each with its
    page names as a prefix of its page names afterwards, and at most one
    journal entry is added. *)
Theorem commit_keeps_pages (timestamp monsterId : string) (k : Knowledge.t) w :
  ∃ kept added,
    journal (addToBestiary h timestamp monsterId k w) = kept ++ added
    ∧ Forall2
        (fun j j' =>
           journal_name j' = journal_name j
           ∧ map page_name (pages j) `prefix_of` map page_name (pages j'))
        (journal w) kept
    ∧ (length added ≤ 1)%nat.
Proof.
  assert (Forall2
            (fun j j' =>
               journal_name j' = journal_name j
               ∧ map page_name (pages j) `prefix_of` map page_name (pages j'))
            (journal w) (journal w)) as Hsame.
  { apply Forall2_same_length_lookup. split; [done|].
    intros i x y Hx Hy. assert (x = y) as -> by congruence. done. }
  unfold addToBestiary. destruct (actors_get w monsterId) as [m|].
  - destruct (journal_find _ w) as [b|] eqn:Hj.
    + destruct (commit_page h _ _ b) as [b' note] eqn:Hc.
      assert (b' = fst (commit_page h (Monster.name m)
                          (buildBestiaryContent h timestamp k (Monster.name m)) b))
        as Hb by (by rewrite Hc).
      eexists _, []. rewrite app_nil_r. simpl. split; [done|]. split; [|lia].
      eapply Forall2_impl; [by apply store_journal_Forall2|].
      intros j j' [->|[-> ->]]; [done|]. rewrite Hb, commit_page_name.
      split; [done|]. apply commit_page_names.
    + eexists _, [_]. simpl. split; [done|]. split; [done | simpl; lia].
  - exists (journal w), []. rewrite app_nil_r. simpl. split; [done|].
    split; [done | simpl; lia].
Qed.

Lemma concat_cons (x : string) (l : list string) :
  String.concat EmptyString (x :: l) = x +:+ String.concat EmptyString l.
Proof. destruct l; simpl; [by rewrite string_app_nil_r | done]. Qed.

Lemma fold_append_concat {A} (f : A → string) (l : list A) :
  fold_left (fun acc x => acc +:+ f x) l EmptyString
  = String.concat EmptyString (map f l).
Proof.
  induction l as [|x l IH]; [done|].
  cbn [fold_left map]. rewrite fold_append, concat_cons, IH.
  by rewrite string_app_nil_l.
Qed.

(** The page of a bundle is the timestamp line followed, tier by tier in
    the order of the bundle, by the tier's heading and the text of its
    items in their order; it depends on nothing else, not on the monster's
    name and not on the flag. *)
Theorem page_layout (timestamp : string) (k : Knowledge.t) (monsterName : string) :
  buildBestiaryContent h timestamp k monsterName
  = header h timestamp
      +:+ String.concat EmptyString
            (map (fun tier =>
                    "<h3>" +:+ show_ostr (tier_label tier) +:+ "</h3>"
                      +:+ String.concat EmptyString (map info_html (info tier)))
                 (tiers k)).
Proof.
  rewrite build_header, fold_append_concat. f_equal. f_equal.
  apply map_ext. intros tier. unfold tier_html.
  rewrite fold_append, fold_append_concat, string_app_nil_l.
  by rewrite !string_app_assoc.
Qed.

End Journal.

(** ** From the chat message to the bestiary *)

Section ButtonFacts.
Import Knowledge Bestiary.
Variable h : Host.t.

(** The bestiary button of the message of a check, pressed while the
    monster is still an actor, commits the bundle of the message: the
    first record of the monster becomes the page of the tiers the message
    showed, and the notification is not an error.  On a message without
    knowledge the button shows an error and leaves the journal as it
    is. *)
Theorem button_commits_message (timestamp : string) (monster : Monster.Actor)
    (player : option Monster.Actor) (tierConfig : Settings.AllTierConfig) (rolled : Z)
    (skillId : string) (advantage : bool) (dcModifier : Z) (autopass : string)
    (msg : Dialog.ChatMessage) (w : World) :
  actors_get w (Monster.id monster) = Some monster →
  Dialog._performKnowledgeCheck h monster player tierConfig rolled skillId advantage
    dcModifier autopass = Some msg →
  let w' := Button.onClick h timestamp (Button.flags_of msg) w in
  head (records (Host.localize h "MKC.Journal.BestiaryName") (Monster.name monster) w')
  = Some (buildBestiaryContent h timestamp
            {| tiers := Dialog.msg_tiers msg; hasAny := Dialog.hasKnowledge msg |}
            (Monster.name monster))
  ∧ (∃ text, last (notifications w') = Some (Info text))
  ∧ ∀ monsterId,
      journal (Button.onClick h timestamp
                 {| Button.monsterId := monsterId; Button.knowledge := None |} w)
      = journal w.
Proof.
  intros Hm Hmsg w'. subst w'. unfold Button.onClick, Button.flags_of. simpl.
  assert (Dialog.flag_monsterId msg = Monster.id monster
          ∧ Dialog.flag_knowledge msg
            = {| tiers := Dialog.msg_tiers msg; hasAny := Dialog.hasKnowledge msg |})
    as [Hid Hk].
  { unfold Dialog._performKnowledgeCheck in Hmsg. destruct player as [p|]; [|done].
    simpl in Hmsg. destruct (Js.truthy_str autopass); simpl in Hmsg.
    - injection Hmsg as <-. simpl. split; [done|]. by destruct (Dialog._gatherKnowledge _ _ _ _).
    - destruct (Js.obj_get skillId _); [|done]. simpl in Hmsg. injection Hmsg as <-.
      simpl. split; [done|]. by destruct (Dialog._gatherKnowledge _ _ _ _). }
  rewrite Hid, Hk. split; [|split; [|done]].
  - destruct (addToBestiary_records h timestamp (Monster.id monster)
                {| tiers := Dialog.msg_tiers msg; hasAny := Dialog.hasKnowledge msg |}
                w monster Hm) as [Hr _].
    rewrite Hr. by destruct (records _ _ w).
  - unfold addToBestiary. rewrite Hm. destruct (journal_find _ w) as [b|].
    + unfold commit_page. destruct (find _ (pages b)); simpl; rewrite last_snoc; eauto.
    + simpl. rewrite last_snoc. eauto.
Qed.

End ButtonFacts.

Lemma button_commits_message_witness :
  ∃ msg,
    Dialog._performKnowledgeCheck Sample.host Sample.goblin (Some Sample.hero)
      Settings.default_config 17 "arc" false 0 EmptyString = Some msg
    ∧ head (Bestiary.records "MKC.Journal.BestiaryName" "Goblin"
              (Button.onClick Sample.host Sample.today (Button.flags_of msg)
                 Sample.known_world))
      = Some (Bestiary.buildBestiaryContent Sample.host Sample.today
                {| Knowledge.tiers := Dialog.msg_tiers msg;
                   Knowledge.hasAny := Dialog.hasKnowledge msg |}
                "Goblin").
Proof.
  destruct (Dialog._performKnowledgeCheck Sample.host Sample.goblin (Some Sample.hero)
              Settings.default_config 17 "arc" false 0 EmptyString) as [msg|] eqn:Hmsg;
    [|discriminate Hmsg].
  exists msg. split; [reflexivity|].
  exact (proj1 (button_commits_message Sample.host Sample.today Sample.goblin
                  (Some Sample.hero) Settings.default_config 17 "arc" false 0
                  EmptyString msg Sample.known_world eq_refl Hmsg)).
Defined.

(** ** The outcome of a click *)

Section ClickOutcome.
Import Bestiary Main.
Variable h : Host.t.
Implicit Types (user : User) (w : World).

(** The characters offered are actors of the world, in the world's
    order, of type [character]; a player is offered only characters the
    player owns, and never one the game master is not offered. *)
Theorem available_characters user w :
  getAvailableCharacters user w `sublist_of` actors w
  ∧ Forall (fun a => Monster.type a = "character"
                     ∧ (isGM user = false → Monster.isOwner a = true))
      (getAvailableCharacters user w)
  ∧ getAvailableCharacters user w
      `sublist_of`
    getAvailableCharacters
      {| isGM := true; character := character user; targets := targets user |} w.
Proof.
  unfold getAvailableCharacters. simpl. destruct (isGM user); repeat split.
  - apply sublist_filter.
  - apply Forall_forall. intros a [Ht _]%list_elem_of_filter. by split.
  - done.
  - apply sublist_filter.
  - apply Forall_forall. intros a [[Ht Ho] _]%list_elem_of_filter. by split.
  - induction (actors w) as [|a l IH]; [done|].
    rewrite !filter_cons. destruct (decide (Monster.type a = "character")) as [Ht|Ht].
    + destruct (decide (_ ∧ _)); [by constructor | by constructor].
    + destruct (decide (_ ∧ _)) as [[? _]|]; done.
Qed.

(** A click renders the dialog exactly when one token is targeted, it
    has an actor of type [npc], and a character is available.  The dialog
    is then on that actor, offers the available characters and preselects
    the user's own character, or the first available one when the user
    has none, and no notification is shown; otherwise exactly one warning
    is shown. *)
Theorem click_outcome user w :
  let r := onMonsterKnowledgeClick h user w in
  (is_Some (dialog r)
   ↔ ∃ token a,
       targets user = [token] ∧ actor token = Some a ∧ Monster.type a = "npc"
       ∧ getAvailableCharacters user w ≠ [])
  ∧ (∀ d, dialog r = Some d →
       shown r = []
       ∧ (actor <$> head (targets user)) = Some (Some (monster d))
       ∧ availableCharacters d = getAvailableCharacters user w
       ∧ Some (defaultCharacterId d)
         = Monster.id
             <$> (match character user with
                  | Some c => Some c
                  | None => head (getAvailableCharacters user w)
                  end))
  ∧ (dialog r = None → ∃ text, shown r = [Warn text]).
Proof.
  intros r. subst r. unfold onMonsterKnowledgeClick.
  destruct (targets user) as [|token [|t2 rest]] eqn:Ht.
  - split; [|split]; [|done|by eexists].
    split; [by intros [? ?]|]. intros (? & ? & ? & _). done.
  - destruct (actor token) as [a|] eqn:Ha.
    + destruct (String.eqb_spec (Monster.type a) "npc") as [Hn|Hn]; simpl.
      * destruct (getAvailableCharacters user w) as [|first others] eqn:Hc.
        -- split; [|split]; [|done|by eexists].
           split; [by intros [? ?]|]. intros (? & ? & _ & _ & _ & ?). done.
        -- split; [|split]; [| |done].
           ++ split; [|by eauto]. intros _. exists token, a. by repeat split.
           ++ intros d [= <-]. simpl. repeat split; [by rewrite Ha|].
              by destruct (character user).
      * split; [|split]; [|done|by eexists].
        split; [by intros [? ?]|].
        intros (? & ? & [= <-] & Ha' & ? & _). congruence.
    + split; [|split]; [|done|by eexists].
      split; [by intros [? ?]|]. intros (? & ? & [= <-] & ? & _). congruence.
  - split; [|split]; [|done|by eexists].
    split; [by intros [? ?]|]. intros (? & ? & ? & _). done.
Qed.

End ClickOutcome.

(** ** The skills the dialog offers *)

Section Skills.
Import Context.
Variable skillTable : string → option SkillConfig.
Variable player : Monster.Actor.

Lemma skills_fold (l : list string) (acc : list SkillOption) :
  fold_left (skill_step skillTable player) l acc
  = acc ++ flat_map (skill_step skillTable player []) l.
Proof.
  revert acc. induction l as [|x l IH]; intros acc; simpl; [by rewrite app_nil_r|].
  rewrite IH. rewrite app_assoc. f_equal. unfold skill_step.
  destruct (Js.obj_get x _); [|by rewrite app_nil_r].
  destruct (skillTable x); [done | by rewrite app_nil_r].
Qed.

(** What one skill identifier contributes: nothing, or its one option. *)
Lemma skill_step_one (skillId : string) :
  skill_step skillTable player [] skillId = []
  ∨ ∃ s, skill_step skillTable player [] skillId = [s]
         ∧ skill_id s = skillId
         ∧ Js.obj_get skillId (Monster.skills (Monster.system player)) = Some (modifier s)
         ∧ is_Some (skillTable skillId).
Proof.
  unfold skill_step. destruct (Js.obj_get skillId _) as [total|]; [|by left].
  destruct (skillTable skillId); [|by left]. right. eexists. by repeat split.
Qed.

Lemma skills_sublist (l : list string) :
  map skill_id (flat_map (skill_step skillTable player []) l) `sublist_of` l.
Proof.
  induction l as [|x l IH]; simpl; [constructor|]. rewrite map_app.
  destruct (skill_step_one x) as [->|(s & -> & <- & _)]; simpl.
  - by apply sublist_cons.
  - by apply sublist_skip.
Qed.

Lemma skills_sound (l : list string) :
  Forall
    (fun s =>
       Js.obj_get (skill_id s) (Monster.skills (Monster.system player))
       = Some (modifier s)
       ∧ is_Some (skillTable (skill_id s)))
    (flat_map (skill_step skillTable player []) l).
Proof.
  induction l as [|x l IH]; simpl; [done|]. apply Forall_app. split; [|done].
  destruct (skill_step_one x) as [->|(s & -> & <- & ? & ?)]; [done|].
  by repeat constructor.
Qed.

(** What one skill identifier contributes, in full: its option when the
    character has the skill and the system configures it, else
    nothing. *)
Lemma skill_step_exact (skillId : string) :
  skill_step skillTable player [] skillId
  = match Js.obj_get skillId (Monster.skills (Monster.system player)),
          skillTable skillId with
    | Some total, Some skillConfig =>
        [{| skill_id := skillId;
            label := skill_label skillConfig;
            modifier := total;
            modifierDisplay :=
              (if 0 <=? total then "+" else EmptyString) +:+ Js.num_to_string total |}]
    | _, _ => []
    end.
Proof.
  unfold skill_step. destruct (Js.obj_get skillId _); [|done].
  by destruct (skillTable skillId).
Qed.

Lemma skills_ids (l : list string) :
  map skill_id (flat_map (skill_step skillTable player []) l)
  = List.filter
      (fun skillId =>
         match Js.obj_get skillId (Monster.skills (Monster.system player)),
               skillTable skillId with
         | Some _, Some _ => true
         | _, _ => false
         end) l.
Proof.
  induction l as [|x l IH]; simpl; [done|]. rewrite map_app, IH, skill_step_exact.
  destruct (Js.obj_get x _); [|done]. by destruct (skillTable x).
Qed.

(** The dialog offers exactly the skills among arcana, history, nature
    and religion that the character has and the system configures, in
    this order and each once: the offered identifiers are the four
    filtered by these two conditions, and an identifier is offered if and
    only if it is one of the four and meets both.  Each option carries the
    character's total as modifier, the total with a plus sign in front
    when it is not negative as display, and the system's label.  A roll
    with an offered skill always posts its message.  The preselected
    skill is the first one offered, or arcana when none is. *)
Theorem offered_skills :
  let skills := _getKnowledgeSkills skillTable player in
  map skill_id skills
  = List.filter
      (fun skillId =>
         match Js.obj_get skillId (Monster.skills (Monster.system player)),
               skillTable skillId with
         | Some _, Some _ => true
         | _, _ => false
         end) knowledgeSkillIds
  ∧ (∀ skillId,
       skillId ∈ map skill_id skills
       ↔ skillId ∈ knowledgeSkillIds
         ∧ is_Some (Js.obj_get skillId (Monster.skills (Monster.system player)))
         ∧ is_Some (skillTable skillId))
  ∧ map skill_id skills `sublist_of` knowledgeSkillIds
  ∧ Forall
      (fun s =>
         Js.obj_get (skill_id s) (Monster.skills (Monster.system player))
         = Some (modifier s)
         ∧ is_Some (skillTable (skill_id s)))
      skills
  ∧ Forall
      (fun s =>
         (skill_label <$> skillTable (skill_id s)) = Some (label s)
         ∧ modifierDisplay s
           = (if 0 <=? modifier s then "+" else EmptyString)
               +:+ Js.num_to_string (modifier s))
      skills
  ∧ (∀ (h : Host.t) (monster : Monster.Actor) (tierConfig : Settings.AllTierConfig)
       (rolled : Z) (advantage : bool) (dcModifier : Z) (autopass : string),
       Forall
         (fun s =>
            is_Some
              (Dialog._performKnowledgeCheck h monster (Some player) tierConfig
                 rolled (skill_id s) advantage dcModifier autopass))
         skills)
  ∧ selectedSkill skills
    = match skills with
      | [] => "arc"
      | s :: _ => skill_id s
      end.
Proof.
  intros skills. subst skills. unfold _getKnowledgeSkills. rewrite skills_fold.
  rewrite app_nil_l.
  split; [apply skills_ids|]. split.
  { intros skillId. rewrite skills_ids, list_elem_of_In, filter_In, <- list_elem_of_In.
    split.
    - intros [Hin Hb]. split; [done|].
      destruct (Js.obj_get skillId _); [|done].
      destruct (skillTable skillId); [eauto | done].
    - intros (Hin & [total ->] & [cfg ->]). done. }
  split; [apply skills_sublist|]. split; [apply skills_sound|]. split.
  { induction knowledgeSkillIds as [|x l IH]; simpl; [done|].
    apply Forall_app. split; [|done]. rewrite skill_step_exact.
    destruct (Js.obj_get x _) as [total|]; [|done].
    destruct (skillTable x) as [cfg|] eqn:Hx; [|done].
    repeat constructor; simpl; by rewrite ?Hx. }
  split.
  - intros h monster tierConfig rolled advantage dcModifier autopass.
    eapply Forall_impl; [apply skills_sound|]. intros s [Hs _].
    unfold Dialog._performKnowledgeCheck. simpl. rewrite Hs.
    destruct (Js.truthy_str autopass); simpl; eauto.
  - unfold selectedSkill, knowledgeSkillIds. simpl.
    destruct (skill_step_one "arc") as [->|(s1 & -> & H1 & _)]; simpl;
      [|by rewrite H1].
    destruct (skill_step_one "his") as [->|(s2 & -> & H2 & _)]; simpl;
      [|by rewrite H2].
    destruct (skill_step_one "nat") as [->|(s3 & -> & H3 & _)]; simpl;
      [|by rewrite H3].
    destruct (skill_step_one "rel") as [->|(s4 & -> & H4 & _)]; simpl;
      [done | by rewrite H4].
Qed.

(** A character with all four skills, under a system that configures
    history and religion only, is offered these two, with the totals 1
    and 2. *)
Example skills_of_hero :
  map (fun s => (skill_id s, modifier s, modifierDisplay s))
    (_getKnowledgeSkills
       (fun skillId =>
          if String.eqb skillId "his" || String.eqb skillId "rel"
          then Some {| skill_label := Some skillId |} else None)
       Sample.hero)
  = [("his", 1, "+1"); ("rel", 2, "+2")].
Proof. vm_compute. reflexivity. Qed.

End Skills.

Lemma shown_dcs_are_check_dcs_witness :
  Context.shown_dcs Store.fresh = Some (Dialog.check_dcs Settings.default_config 0).
Proof.
  apply (shown_dcs_are_check_dcs Store.fresh Settings.default_config).
  vm_compute. reflexivity.
Defined.

(** ** Instances of the conditional resolver lemmas *)

Lemma resolver_monotone_witness :
  Js.obj_get "tier1" (Dialog._determineUnlockedTiers (Some 20) Sample.default_dcs)
  = Some true.
Proof.
  apply (resolver_monotone (Some 20) Sample.default_dcs "tier1" "tier3" 12 18);
    [reflexivity | reflexivity | reflexivity | lia | lia |].
  vm_compute. reflexivity.
Defined.

